(** * Control financiero de proyectos: the KPI library [app/utils.py]

    A shallow embedding of [compute_kpis], [flag_risk] and [summary_table]
    and the properties of them that the specification states.

    Modelling conventions.
    - A Python/numpy float is a [pyfloat]: an exact rational or one of the
      three special values [PInf], [NInf], [NaN].  Arithmetic on the
      special values follows IEEE 754; arithmetic on rationals is exact
      (binary rounding and overflow are not modelled).  Python's [int] and
      [float] are not told apart: the int [n] is [Finite n].  The
      properties below are stated on the expressions of the code and on
      comparisons, so that they do not rest on the digits of a rounded
      result; where one does, it says so.
    - A pandas [Timestamp] is a number of nanoseconds, [None] being [NaT].
    - A Python exception is the name of its class; a computation that may
      raise returns a [result].
    - A [DataFrame] is the list of its rows, in index order. *)

From Stdlib Require Import ZArith QArith Qreduction Qround Qabs Lia Lqa.
From Stdlib Require Import String Ascii List Sorted Permutation DecimalString.
From Stdlib Require OrderedTypeEx.
From stdpp Require Import gmap strings list fin_maps sorting.

Local Open Scope string_scope.
Local Open Scope Z_scope.

(** ** Exceptions and the error monad *)

Definition exn := string.

Definition IndexError : exn := "IndexError".
Definition KeyError : exn := "KeyError".
Definition TypeError : exn := "TypeError".
Definition ZeroDivisionError : exn := "ZeroDivisionError".
Definition LinAlgError : exn := "LinAlgError".

Inductive result (A : Type) : Type :=
| Ok (a : A)
| Err (e : exn).
Arguments Ok {A} a.
Arguments Err {A} e.

Definition bind {A B} (m : result A) (f : A → result B) : result B :=
  match m with
  | Ok a => f a
  | Err e => Err e
  end.

Notation "x <- m ;; k" := (bind m (λ x, k))
  (at level 100, m at next level, right associativity).

(** [try: body except Exception: handler] *)
Definition try_except {A} (body handler : result A) : result A :=
  match body with
  | Ok a => Ok a
  | Err _ => handler
  end.

(** ** Floats *)

Inductive pyfloat : Type :=
| Finite (q : Q)
| PInf
| NInf
| NaN.

(** Results are kept in lowest terms, so that equal numbers are equal terms. *)
Definition fin (q : Q) : pyfloat := Finite (Qred q).
Definition of_int (z : Z) : pyfloat := Finite (inject_Z z).

Definition isnan (x : pyfloat) : bool :=
  match x with NaN => true | _ => false end.

Definition isfinite (x : pyfloat) : bool :=
  match x with Finite _ => true | _ => false end.

(** [bool(x)]: only zero is false; nan and the infinities are true. *)
Definition truthy (x : pyfloat) : bool :=
  match x with
  | Finite q => negb (Qeq_bool q 0)
  | _ => true
  end.

(** The sign of a rational, as a comparison with zero. *)
Definition qsign (q : Q) : comparison := (q ?= 0)%Q.

Definition fneg (x : pyfloat) : pyfloat :=
  match x with
  | Finite q => fin (- q)
  | PInf => NInf
  | NInf => PInf
  | NaN => NaN
  end.

Definition fabs (x : pyfloat) : pyfloat :=
  match x with
  | Finite q => fin (Qabs.Qabs q)
  | PInf | NInf => PInf
  | NaN => NaN
  end.

Definition fadd (x y : pyfloat) : pyfloat :=
  match x, y with
  | NaN, _ | _, NaN => NaN
  | Finite a, Finite b => fin (a + b)
  | PInf, NInf | NInf, PInf => NaN
  | PInf, _ | _, PInf => PInf
  | NInf, _ | _, NInf => NInf
  end.

Definition fsub (x y : pyfloat) : pyfloat :=
  match x, y with
  | NaN, _ | _, NaN => NaN
  | Finite a, Finite b => fin (a - b)
  | PInf, PInf | NInf, NInf => NaN
  | PInf, _ | _, NInf => PInf
  | NInf, _ | _, PInf => NInf
  end.

(** An infinity of the sign of [s], or nan when [s] is the sign of zero. *)
Definition inf_of_sign (s : comparison) : pyfloat :=
  match s with
  | Gt => PInf
  | Lt => NInf
  | Eq => NaN
  end.

Definition fmul (x y : pyfloat) : pyfloat :=
  match x, y with
  | NaN, _ | _, NaN => NaN
  | Finite a, Finite b => fin (a * b)
  | PInf, Finite a | Finite a, PInf => inf_of_sign (qsign a)
  | NInf, Finite a | Finite a, NInf => inf_of_sign (CompOpp (qsign a))
  | PInf, PInf | NInf, NInf => PInf
  | PInf, NInf | NInf, PInf => NInf
  end.

(** IEEE division, for a divisor that is not zero. *)
Definition fdiv (x y : pyfloat) : pyfloat :=
  match x, y with
  | NaN, _ | _, NaN => NaN
  | Finite a, Finite b => fin (a / b)
  | Finite _, (PInf | NInf) => Finite 0
  | PInf, Finite b => inf_of_sign (qsign b)
  | NInf, Finite b => inf_of_sign (CompOpp (qsign b))
  | (PInf | NInf), (PInf | NInf) => NaN
  end.

(** Python's [x / y] on floats and ints: a zero divisor raises. *)
Definition py_truediv (x y : pyfloat) : result pyfloat :=
  if truthy y then Ok (fdiv x y) else Err ZeroDivisionError.

(** [x < y] and [x <= y]; every comparison with nan is false. *)
Definition fltb (x y : pyfloat) : bool :=
  match x, y with
  | NaN, _ | _, NaN => false
  | Finite a, Finite b => negb (Qle_bool b a)
  | NInf, (Finite _ | PInf) => true
  | Finite _, PInf => true
  | _, _ => false
  end.

Definition fleb (x y : pyfloat) : bool :=
  match x, y with
  | NaN, _ | _, NaN => false
  | Finite a, Finite b => Qle_bool a b
  | NInf, _ => true
  | _, PInf => true
  | _, _ => false
  end.

Definition fgtb (x y : pyfloat) : bool := fltb y x.
Definition fgeb (x y : pyfloat) : bool := fleb y x.

(** [np.maximum], [np.minimum] and [np.clip]: a nan operand is returned. *)
Definition np_maximum (x y : pyfloat) : pyfloat :=
  if isnan x then x else if isnan y then y else if fltb x y then y else x.

Definition np_minimum (x y : pyfloat) : pyfloat :=
  if isnan x then x else if isnan y then y else if fltb y x then y else x.

Definition np_clip (x lo hi : pyfloat) : pyfloat :=
  np_minimum (np_maximum x lo) hi.

(** ** Timestamps *)

(** [None] is [NaT]. *)
Definition Timestamp := option Z.
Definition Timedelta := option Z.

Definition ns_per_day : Z := 86400000000000.

(** Midnight of day [n], counted from the epoch. *)
Definition day (n : Z) : Timestamp := Some (n * ns_per_day).

(** [a - b] on timestamps; [NaT] is absorbing. *)
Definition ts_sub (a b : Timestamp) : Timedelta :=
  match a, b with
  | Some x, Some y => Some (x - y)
  | _, _ => None
  end.

(** [Timedelta.days]: whole days, rounded down; [None] stands for the
    [nan] that [NaT.days] is. *)
Definition td_days (d : Timedelta) : option Z :=
  match d with
  | Some n => Some (n `div` ns_per_day)
  | None => None
  end.

(** [d.days if d.days > 0 else 1]; [nan > 0] is false. *)
Definition days_or_one (d : Timedelta) : Z :=
  match td_days d with
  | Some n => if 0 <? n then n else 1
  | None => 1
  end.

(** [Series.min()] and [Series.max()] of a datetime column skip [NaT] and
    are [NaT] when nothing is left. *)
Definition ts_combine (f : Z → Z → Z) (t acc : Timestamp) : Timestamp :=
  match t, acc with
  | Some a, Some b => Some (f a b)
  | Some a, None => Some a
  | None, _ => acc
  end.

Definition ts_min (l : list Timestamp) : Timestamp := foldr (ts_combine Z.min) None l.
Definition ts_max (l : list Timestamp) : Timestamp := foldr (ts_combine Z.max) None l.

(** The day offsets as floats: [(col - start).dt.days.values.astype(float)]. *)
Definition days_float (start t : Timestamp) : pyfloat :=
  match td_days (ts_sub t start) with
  | Some n => of_int n
  | None => NaN
  end.

Definition ts_isna (t : Timestamp) : bool :=
  match t with None => true | Some _ => false end.

Definition ts_leb (a b : Timestamp) : bool :=
  match a, b with
  | Some x, Some y => x <=? y
  | _, _ => false
  end.

(** ** Data frames *)

(** The columns of the loaded table that the library reads. *)
Record Row : Type := {
  project_id : string;
  project_name : string;
  budget : pyfloat;
  start_date : Timestamp;
  end_date : Timestamp;
  date : Timestamp;
  cumulative_spend : pyfloat
}.

Definition DataFrame := list Row.

(** [.iloc[0]] and [.iloc[-1]] raise [IndexError] out of bounds. *)
Definition iloc_first {A} (l : list A) : result A :=
  match l with
  | [] => Err IndexError
  | a :: _ => Ok a
  end.

Definition iloc_last {A} (l : list A) : result A :=
  match last l with
  | None => Err IndexError
  | Some a => Ok a
  end.

(** [sort_values(by, ascending)] with the default [na_position="last"],
    following pandas' [nargsort]: the rows whose key is missing are set
    apart and appended in their original order; the others are sorted by
    an ascending argsort, for a descending sort on the reversed sequence
    with the outcome reversed again.  The argsort is the insertion sort
    that numpy's default kind (quicksort) runs on arrays of at most 16
    elements, which keeps rows of equal keys in the order they came in.
    On longer arrays numpy's default kind promises no such order: there
    the place of rows of equal keys is a choice of this model, and the
    properties of [compute_kpis] and [summary_table] below do not rest on
    it (the one example that shows a tie has two rows). *)
Section sort_values.
Context {A K : Type} (isna : K → bool) (leb : K → K → bool) (key : A → K).

Fixpoint insert_sorted (x : A) (l : list A) : list A :=
  match l with
  | [] => [x]
  | y :: l' => if leb (key x) (key y) then x :: l else y :: insert_sorted x l'
  end.

Definition argsort (l : list A) : list A := foldr insert_sorted [] l.

Definition sort_values (ascending : bool) (rows : list A) : list A :=
  let non_nans := List.filter (λ r, negb (isna (key r))) rows in
  let nans := List.filter (λ r, isna (key r)) rows in
  let sorted :=
    if ascending then argsort non_nans else rev (argsort (rev non_nans)) in
  (sorted ++ nans)%list.

End sort_values.

(** ** [np.polyfit(x, y, 1)] *)

Definition qsum (l : list Q) : Q := foldr Qplus 0%Q l.
Definition qdot (x y : list Q) : Q := qsum (zip_with Qmult x y).

(** The least-squares line through the points [(x_i, y_i)], as
    [(slope, intercept)].  When the x-values are not all the same the
    normal equations have one solution.  When they are all [x0], numpy
    (which scales the columns of the Vandermonde matrix by their norms and
    calls [lstsq]) returns the solution of least norm in the scaled
    unknowns and warns; for [x0 = 0] the scaling divides zero by zero and
    [lstsq] raises [LinAlgError] on the resulting nan. *)
Definition polyfit1 (x y : list Q) : result (Q * Q) :=
  let n := inject_Z (Z.of_nat (length x)) in
  let sx := qsum x in
  let sy := qsum y in
  let sxx := qdot x x in
  let sxy := qdot x y in
  let den := (n * sxx - sx * sx)%Q in
  if Qeq_bool den 0 then
    let x0 := hd 0%Q x in
    if Qeq_bool x0 0 then Err LinAlgError
    else Ok (sy / (2 * n * x0), sy / (2 * n))%Q
  else Ok ((n * sxy - sx * sy) / den, (sy * sxx - sx * sxy) / den)%Q.

Definition as_Q (x : pyfloat) : Q :=
  match x with Finite q => q | _ => 0%Q end.

(** ** [compute_kpis] *)

(** The values a dict of KPIs holds. *)
Inductive pyval : Type :=
| PyNum (x : pyfloat)
| PyStamp (t : Timestamp).

(** The local variables of [compute_kpis] at its [return]. *)
Record kpi_locals : Type := {
  kpi_budget : pyfloat;
  kpi_latest_spend : pyfloat;
  kpi_pct_execution : pyfloat;
  kpi_variance_pct : pyfloat;
  kpi_burn_rate : pyfloat;
  kpi_days_elapsed : Z;
  kpi_days_total : Z;
  kpi_forecast_to_complete : pyfloat;
  kpi_overload : pyfloat;
  kpi_risk_score : pyfloat;
  kpi_latest_date : Timestamp
}.

(** [latest_spend * (days_total / days_elapsed)] *)
Definition forecast_fallback (latest_spend : pyfloat) (days_total days_elapsed : Z)
    : result pyfloat :=
  r <- py_truediv (of_int days_total) (of_int days_elapsed);;
  Ok (fmul latest_spend r).

(** The body of the [try] block. *)
Definition forecast_fit (df : DataFrame) (start : Timestamp)
    (latest_spend : pyfloat) (days_total days_elapsed : Z) : result pyfloat :=
  let x := map (λ r, days_float start (date r)) df in
  let y := map cumulative_spend df in
  if (2 <=? length x)%nat && forallb isfinite x && forallb isfinite y then
    coef <- polyfit1 (map as_Q x) (map as_Q y);;
    let '(slope, intercept) := coef in
    Ok (fadd (fmul (Finite slope) (of_int days_total)) (Finite intercept))
  else forecast_fallback latest_spend days_total days_elapsed.

(** [(variance_pct * 0.6 + overload * 0.4) * 100] *)
Definition risk_raw (variance_pct overload : pyfloat) : pyfloat :=
  fmul (fadd (fmul variance_pct (Finite (6 # 10))) (fmul overload (Finite (4 # 10))))
       (Finite 100).

Definition compute_kpis_locals (df_proj : DataFrame) : result kpi_locals :=
  let df := df_proj in
  budget <- iloc_first (map budget df);;
  let start := ts_min (map start_date df) in
  let end_ := ts_max (map end_date df) in
  latest <- iloc_last (sort_values ts_isna ts_leb date true df);;
  let latest_date := date latest in
  let latest_spend := cumulative_spend latest in
  let days_total := days_or_one (ts_sub end_ start) in
  let days_elapsed := days_or_one (ts_sub latest_date start) in
  pct_execution <-
    (if truthy budget then py_truediv latest_spend budget else Ok (Finite 0));;
  variance_pct <-
    (if truthy budget then py_truediv (fsub latest_spend budget) budget
     else Ok (Finite 0));;
  burn_rate <-
    (if truthy (of_int days_elapsed) then py_truediv latest_spend (of_int days_elapsed)
     else Ok (Finite 0));;
  forecast <-
    try_except (forecast_fit df start latest_spend days_total days_elapsed)
               (forecast_fallback latest_spend days_total days_elapsed);;
  let forecast_to_complete := forecast in
  overload <-
    (if truthy budget then py_truediv (fsub forecast_to_complete budget) budget
     else Ok (Finite 0));;
  let risk_score :=
    np_clip (risk_raw variance_pct overload) (Finite (-1000)) (Finite 1000) in
  Ok {| kpi_budget := budget;
        kpi_latest_spend := latest_spend;
        kpi_pct_execution := pct_execution;
        kpi_variance_pct := variance_pct;
        kpi_burn_rate := burn_rate;
        kpi_days_elapsed := days_elapsed;
        kpi_days_total := days_total;
        kpi_forecast_to_complete := forecast_to_complete;
        kpi_overload := overload;
        kpi_risk_score := risk_score;
        kpi_latest_date := latest_date |}.

(** The dict that [compute_kpis] returns. *)
Definition kpis_dict (k : kpi_locals) : gmap string pyval :=
  <["budget" := PyNum (kpi_budget k)]>
  (<["latest_spend" := PyNum (kpi_latest_spend k)]>
  (<["pct_execution" := PyNum (kpi_pct_execution k)]>
  (<["variance_pct" := PyNum (kpi_variance_pct k)]>
  (<["burn_rate" := PyNum (kpi_burn_rate k)]>
  (<["days_elapsed" := PyNum (of_int (kpi_days_elapsed k))]>
  (<["days_total" := PyNum (of_int (kpi_days_total k))]>
  (<["forecast_to_complete" := PyNum (kpi_forecast_to_complete k)]>
  (<["risk_score" := PyNum (kpi_risk_score k)]>
  (<["latest_date" := PyStamp (kpi_latest_date k)]> ∅))))))))).

Definition compute_kpis (df_proj : DataFrame) : result (gmap string pyval) :=
  k <- compute_kpis_locals df_proj;;
  Ok (kpis_dict k).

(** ** [flag_risk] *)

(** [d.get(k, dflt)] and [d[k]] *)
Definition dict_get (d : gmap string pyval) (k : string) (dflt : pyval) : pyval :=
  default dflt (d !! k).

Definition dict_item (d : gmap string pyval) (k : string) : result pyval :=
  match d !! k with
  | Some v => Ok v
  | None => Err KeyError
  end.

(** [abs(v)], [v * c] and [a > b]: a [Timestamp] supports neither [abs] nor
    a product with a number, and is not ordered against a number. *)
Definition py_abs (v : pyval) : result pyfloat :=
  match v with
  | PyNum x => Ok (fabs x)
  | PyStamp _ => Err TypeError
  end.

Definition py_mul (v : pyval) (c : pyfloat) : result pyfloat :=
  match v with
  | PyNum x => Ok (fmul x c)
  | PyStamp _ => Err TypeError
  end.

(** The number that a [.1f] format takes.  (The only values formatted are
    ones whose [abs] has been taken, so the [Timestamp] case is not met.) *)
Definition py_num (v : pyval) : result pyfloat :=
  match v with
  | PyNum x => Ok x
  | PyStamp _ => Err TypeError
  end.

Definition py_gt (a b : pyval) : result bool :=
  match a, b with
  | PyNum x, PyNum y => Ok (fgtb x y)
  | PyStamp (Some x), PyStamp (Some y) => Ok (y <? x)
  | PyStamp _, PyStamp _ => Ok false
  | _, _ => Err TypeError
  end.

(** Rounding to the nearest integer, ties to the even one. *)
Definition round_half_even (q : Q) : Z :=
  let f := Qfloor q in
  match (q - inject_Z f ?= 1 # 2)%Q with
  | Lt => f
  | Gt => f + 1
  | Eq => if Z.even f then f else f + 1
  end.

Definition digits (z : Z) : string := NilZero.string_of_uint (N.to_uint (Z.to_N z)).

(** [format(x, ".1f")]: one decimal, the exact value rounded half to even. *)
Definition format_1f (x : pyfloat) : string :=
  match x with
  | Finite q =>
      let t := round_half_even (Qabs.Qabs q * 10) in
      (if Qle_bool 0 q then "" else "-") ++
      digits (t `div` 10) ++ "." ++ digits (t `mod` 10)
  | PInf => "inf"
  | NInf => "-inf"
  | NaN => "nan"
  end.

Definition msg_variance (pct : pyfloat) : string :=
  "Desviación actual " ++ format_1f pct ++ "% vs presupuesto.".
Definition msg_risk (score : pyfloat) : string :=
  "Riesgo estimado " ++ format_1f score ++ ".".
Definition msg_overrun : string := "Proyección indica posible sobrecosto.".
Definition msg_no_risk : string :=
  "No se detectan riesgos relevantes en umbrales actuales.".

(** [flag_risk] up to the point where the messages are joined: the flag and
    the list [messages]. *)
Definition flag_risk_messages (kpis : gmap string pyval)
    (variance_threshold risk_threshold : pyfloat) : result (bool * list string) :=
  a_var <- py_abs (dict_get kpis "variance_pct" (PyNum (Finite 0)));;
  let is_var := fgeb a_var variance_threshold in
  a_risk <- py_abs (dict_get kpis "risk_score" (PyNum (Finite 0)));;
  let is_risk := fgeb a_risk risk_threshold in
  let messages : list string := [] in
  messages <-
    (if is_var then
       v <- dict_item kpis "variance_pct";;
       pct <- py_mul v (Finite 100);;
       Ok (messages ++ [msg_variance pct])%list
     else Ok messages);;
  messages <-
    (if is_risk then
       v <- dict_item kpis "risk_score";;
       r <- py_num v;;
       Ok (messages ++ [msg_risk r])%list
     else Ok messages);;
  over <- py_gt (dict_get kpis "forecast_to_complete" (PyNum (Finite 0)))
               (dict_get kpis "budget" (PyNum (Finite 0)));;
  let messages := if over : bool then (messages ++ [msg_overrun])%list else messages in
  let messages :=
    match messages with
    | [] => (messages ++ [msg_no_risk])%list
    | _ => messages
    end in
  flag <-
    (if is_var then Ok true
     else if is_risk then Ok true
     else py_gt (dict_get kpis "forecast_to_complete" (PyNum (Finite 0)))
                (dict_get kpis "budget" (PyNum (Finite 0))));;
  Ok (flag, messages).

Definition flag_risk (kpis : gmap string pyval)
    (variance_threshold risk_threshold : pyfloat) : result (bool * string) :=
  r <- flag_risk_messages kpis variance_threshold risk_threshold;;
  let '(flag, messages) := r in
  Ok (flag, String.concat " | " messages).

(** The default values of the two thresholds, [0.10] and [5.0]. *)
Definition default_variance_threshold : pyfloat := Finite (1 # 10).
Definition default_risk_threshold : pyfloat := Finite 5.

(** ** [summary_table] *)

(** [df.groupby("project_id")]: the groups come by ascending key, each with
    its rows in their original order. *)
Fixpoint insert_key (k : string) (ks : list string) : list string :=
  match ks with
  | [] => [k]
  | k' :: ks' =>
      match String.compare k k' with
      | Lt => k :: ks
      | Eq => ks
      | Gt => k' :: insert_key k ks'
      end
  end.

Definition group_keys (df : DataFrame) : list string :=
  foldr insert_key [] (map project_id df).

Definition groupby_project_id (df : DataFrame) : list (string * DataFrame) :=
  map (λ pid, (pid, List.filter (λ r, String.eqb (project_id r) pid) df))
      (group_keys df).

(** A row of the summary. *)
Record SummaryRow : Type := {
  s_project_id : string;
  s_project_name : string;
  s_budget : pyfloat;
  s_latest_spend : pyfloat;
  s_pct_execution : pyfloat;
  s_variance_pct : pyfloat;
  s_forecast_to_complete : pyfloat;
  s_risk_score : pyfloat
}.

(** [k[key]] for a key that holds a number. *)
Definition dict_num (k : gmap string pyval) (key : string) : result pyfloat :=
  v <- dict_item k key;;
  py_num v.

(** One turn of the loop over the groups. *)
Definition summary_row (g : string * DataFrame) : result SummaryRow :=
  let '(pid, grp) := g in
  k <- compute_kpis grp;;
  name <- iloc_first (map project_name grp);;
  b <- dict_num k "budget";;
  ls <- dict_num k "latest_spend";;
  pe <- dict_num k "pct_execution";;
  vp <- dict_num k "variance_pct";;
  fc <- dict_num k "forecast_to_complete";;
  rs <- dict_num k "risk_score";;
  Ok {| s_project_id := pid;
        s_project_name := name;
        s_budget := b;
        s_latest_spend := ls;
        s_pct_execution := pe;
        s_variance_pct := vp;
        s_forecast_to_complete := fc;
        s_risk_score := rs |}.

Fixpoint collect {A B} (f : A → result B) (l : list A) : result (list B) :=
  match l with
  | [] => Ok []
  | a :: l' => b <- f a;; bs <- collect f l';; Ok (b :: bs)
  end.

(** A frame built from an empty list has no column [risk_score], and
    sorting by it raises [KeyError]. *)
Definition summary_table (df : DataFrame) : result (list SummaryRow) :=
  projects <- collect summary_row (groupby_project_id df);;
  match projects with
  | [] => Err KeyError
  | _ => Ok (sort_values isnan fleb s_risk_score false projects)
  end.

(** ** [load_data] *)

(** The last line of [load_data], on the table as it was read and coerced
    by the lines before it: [sort_values(["project_id", "date"])] orders
    the rows by project and, within a project, by date, a missing date
    after the others; with several keys pandas sorts stably.
    [reset_index(drop=True)] renumbers the rows, which a list does by
    itself. *)
Definition date_leb_na_last (a b : Timestamp) : bool :=
  match a, b with
  | Some x, Some y => x <=? y
  | _, None => true
  | None, Some _ => false
  end.

Definition load_order_leb (a b : string * Timestamp) : bool :=
  match String.compare (fst a) (fst b) with
  | Lt => true
  | Eq => date_leb_na_last (snd a) (snd b)
  | Gt => false
  end.

Definition load_order_key (r : Row) : string * Timestamp := (project_id r, date r).

Definition load_data_sorted (df : DataFrame) : DataFrame :=
  argsort load_order_leb load_order_key df.

(** ** The dashboard *)

(** [Series.unique()]: the values in the order of their first appearance. *)
Fixpoint unique (l : list string) : list string :=
  match l with
  | [] => []
  | x :: l' => x :: List.filter (λ y, negb (String.eqb y x)) (unique l')
  end.

(** [df["project_id"].unique().tolist()], the choices of the side bar. *)
Definition project_list (df : DataFrame) : list string :=
  unique (map project_id df).

(** [df[df["project_id"] == project_choice]] *)
Definition select_project (df : DataFrame) (project_choice : string) : DataFrame :=
  List.filter (λ r, String.eqb (project_id r) project_choice) df.

(** [a / b] on the values of a dict. *)
Definition py_div (a b : pyval) : result pyfloat :=
  match a, b with
  | PyNum x, PyNum y => py_truediv x y
  | _, _ => Err TypeError
  end.

Definition rec_variance (pct : pyfloat) : string :=
  "- Revisar partidas con mayor desviación. Desviación actual " ++ format_1f pct ++ "%.".
Definition rec_forecast : string :=
  "- Evaluar medidas de contención: renegociar proveedores o reasignar partidas. Forecast > presupuesto.".
Definition rec_early : string :=
  "- Alta ejecución temprana: revisar ritmo de gasto y sincronizar cronograma.".
Definition rec_default : string :=
  "- Mantener control y seguimiento regular; no se detectan acciones urgentes.".

(** The list [recs] of the project page; [variance_threshold] is the value
    of the slider, in percent. *)
Definition recommendations (kpis : gmap string pyval) (variance_threshold : pyfloat)
    : result (list string) :=
  let recs : list string := [] in
  v <- dict_item kpis "variance_pct";;
  t <- py_truediv variance_threshold (Finite 100);;
  c <- py_gt v (PyNum t);;
  recs <-
    (if c : bool then
       v <- dict_item kpis "variance_pct";;
       pct <- py_mul v (Finite 100);;
       Ok (recs ++ [rec_variance pct])%list
     else Ok recs);;
  f <- dict_item kpis "forecast_to_complete";;
  b <- dict_item kpis "budget";;
  c <- py_gt f b;;
  let recs := if c : bool then (recs ++ [rec_forecast])%list else recs in
  de <- dict_item kpis "days_elapsed";;
  dt <- dict_item kpis "days_total";;
  q <- py_div de dt;;
  c <-
    (if fltb q (Finite (1 # 2)) then
       pe <- dict_item kpis "pct_execution";;
       py_gt pe (PyNum (Finite (7 # 10)))
     else Ok false);;
  let recs := if c : bool then (recs ++ [rec_early])%list else recs in
  let recs :=
    match recs with
    | [] => (recs ++ [rec_default])%list
    | _ => recs
    end in
  Ok recs.

(** What the page of one project computes, in the order of the script: the
    name of the project, its KPIs, the flag and the message of the alert,
    and the recommendations.  The widgets that show them are left out. *)
Record project_view : Type := {
  view_name : string;
  view_kpis : gmap string pyval;
  view_risky : bool;
  view_message : string;
  view_recs : list string
}.

Definition project_page (df : DataFrame) (project_choice : string)
    (variance_threshold risk_threshold : pyfloat) : result project_view :=
  let proj_df := select_project df project_choice in
  name <- iloc_first (map project_name proj_df);;
  kpis <- compute_kpis proj_df;;
  vt <- py_truediv variance_threshold (Finite 100);;
  r <- flag_risk kpis vt risk_threshold;;
  let '(risky, message) := r in
  recs <- recommendations kpis variance_threshold;;
  Ok {| view_name := name;
        view_kpis := kpis;
        view_risky := risky;
        view_message := message;
        view_recs := recs |}.

(** * The vocabulary of the statements *)

(** ** The values that [compute_kpis] returns *)

(** The fallback value, and the forecast as the [try] statement leaves it. *)
Definition fallback_value (latest_spend : pyfloat) (days_total days_elapsed : Z) : pyfloat :=
  fmul latest_spend (fdiv (of_int days_total) (of_int days_elapsed)).

Definition forecast_value (df : DataFrame) (start : Timestamp)
    (latest_spend : pyfloat) (days_total days_elapsed : Z) : pyfloat :=
  match forecast_fit df start latest_spend days_total days_elapsed with
  | Ok f => f
  | Err _ => fallback_value latest_spend days_total days_elapsed
  end.

(** [q / b if b else 0] *)
Definition ratio_or_zero (q b : pyfloat) : pyfloat :=
  if truthy b then fdiv q b else Finite 0.

Definition kpis_of (df : DataFrame) (b : pyfloat) (latest : Row) : kpi_locals :=
  let start := ts_min (map start_date df) in
  let end_ := ts_max (map end_date df) in
  let latest_spend := cumulative_spend latest in
  let days_total := days_or_one (ts_sub end_ start) in
  let days_elapsed := days_or_one (ts_sub (date latest) start) in
  let variance_pct := ratio_or_zero (fsub latest_spend b) b in
  let forecast := forecast_value df start latest_spend days_total days_elapsed in
  let overload := ratio_or_zero (fsub forecast b) b in
  {| kpi_budget := b;
     kpi_latest_spend := latest_spend;
     kpi_pct_execution := ratio_or_zero latest_spend b;
     kpi_variance_pct := variance_pct;
     kpi_burn_rate := fdiv latest_spend (of_int days_elapsed);
     kpi_days_elapsed := days_elapsed;
     kpi_days_total := days_total;
     kpi_forecast_to_complete := forecast;
     kpi_overload := overload;
     kpi_risk_score :=
       np_clip (risk_raw variance_pct overload) (Finite (-1000)) (Finite 1000);
     kpi_latest_date := date latest |}.

(** The test that guards the fit: at least two rows, and every day offset
    and every spend a finite number. *)
Definition fit_guard (x y : list pyfloat) : bool :=
  (2 <=? length x)%nat && forallb isfinite x && forallb isfinite y.

(** ** Least squares *)

(** The sum of the squared residuals of the line [a * x + b]. *)
Definition sse (x y : list Q) (a b : Q) : Q :=
  qsum (zip_with (λ xi yi, (yi - (a * xi + b)) * (yi - (a * xi + b)))%Q x y).

(** No line has a smaller sum of squared residuals. *)
Definition least_squares (x y : list Q) (a b : Q) : Prop :=
  ∀ a' b', (sse x y a b <= sse x y a' b')%Q.

Definition qlen (l : list Q) : Q := inject_Z (Z.of_nat (length l)).

(** The squares of [d * x_i + e], added up. *)
Definition shift_sq (x : list Q) (d e : Q) : Q :=
  qsum (map (λ xi, (d * xi + e) * (d * xi + e))%Q x).

(** The quantity whose vanishing tells that the x-values are all the same. *)
Definition den (x : list Q) : Q := (qlen x * qdot x x - qsum x * qsum x)%Q.

(** ** The reasons of [flag_risk] *)

(** The messages in the order in which [flag_risk] appends them, for the
    outcomes [c1], [c2], [c3] of its three tests. *)
Definition reasons (c1 c2 c3 : bool) (variance_pct risk_score : pyfloat) : list string :=
  if c1 || c2 || c3 then
    ((if c1 then [msg_variance (fmul variance_pct (Finite 100))] else []) ++
     (if c2 then [msg_risk risk_score] else []) ++
     (if c3 then [msg_overrun] else []))%list
  else [msg_no_risk].

(** The value that the tests of [flag_risk] read under a key. *)
Definition read_or_zero (kpis : gmap string pyval) (key : string) : pyfloat :=
  match kpis !! key with
  | Some (PyNum x) => x
  | _ => Finite 0
  end.

Definition numeric_or_absent (kpis : gmap string pyval) (key : string) : Prop :=
  match kpis !! key with
  | Some (PyStamp _) => False
  | _ => True
  end.

(** ** The order of the summary *)

(** [a] sorts before [b]. *)
Definition str_lt (a b : string) : Prop := String.compare a b = Lt.

(** The row of the summary for a group that has rows. *)
Definition summary_of (pid : string) (r : Row) (k : kpi_locals) : SummaryRow :=
  {| s_project_id := pid;
     s_project_name := project_name r;
     s_budget := kpi_budget k;
     s_latest_spend := kpi_latest_spend k;
     s_pct_execution := kpi_pct_execution k;
     s_variance_pct := kpi_variance_pct k;
     s_forecast_to_complete := kpi_forecast_to_complete k;
     s_risk_score := kpi_risk_score k |}.

(** [tie] is an order in which the rows come; a stable sort keeps it among
    rows with equal keys.  [asc tie x y] says that [x] may stand before [y]
    in an ascending sort, [desc tie x y] that it may in a descending one,
    and [nan_last tie x y] adds the rows without a key at the end. *)
Section sort_order.
Context {A K : Type} (isna : K → bool) (leb : K → K → bool) (key : A → K).

Definition asc (tie : relation A) (x y : A) : Prop :=
  leb (key x) (key y) = true ∧ (leb (key y) (key x) = true → tie x y).

Definition desc (tie : relation A) (x y : A) : Prop :=
  leb (key y) (key x) = true ∧ (leb (key x) (key y) = true → tie x y).

Definition nan_last (tie : relation A) (x y : A) : Prop :=
  match isna (key x), isna (key y) with
  | false, false => desc tie x y
  | false, true => True
  | true, false => False
  | true, true => tie x y
  end.

Definition has_key (x : A) : Prop := isna (key x) = false.

End sort_order.

(** The order of the summary: [x] may stand before [y] when the score of
    [y] is nan, or when the score of [y] is at most that of [x] (neither
    is nan then).  Nothing is said of rows whose scores are equal. *)
Definition score_order (x y : SummaryRow) : Prop :=
  isnan (s_risk_score y) = true ∨ fleb (s_risk_score y) (s_risk_score x) = true.

(** ** Inputs *)

(** A project without a budget. *)
Definition zero_budget_row : Row :=
  {| project_id := "P1"; project_name := "Puente"; budget := Finite 0;
     start_date := day 0; end_date := day 40; date := day 20;
     cumulative_spend := Finite 800 |}.

(** A budget that is missing is a nan, and a nan is true in Python. *)
Definition missing_budget_row : Row :=
  {| project_id := "P1"; project_name := "Puente"; budget := NaN;
     start_date := day 0; end_date := day 40; date := day 20;
     cumulative_spend := Finite 800 |}.

(** A spend that is missing is a nan too. *)
Definition missing_spend_row : Row :=
  {| project_id := "P1"; project_name := "Puente"; budget := Finite 1000;
     start_date := day 0; end_date := day 40; date := day 20;
     cumulative_spend := NaN |}.

(** The four entries that [flag_risk] reads, for the worked example. *)
Definition example_kpis : gmap string pyval :=
  <["budget" := PyNum (Finite 1000)]>
  (<["variance_pct" := PyNum (Finite (-1 # 5))]>
  (<["forecast_to_complete" := PyNum (Finite 1600)]>
  (<["risk_score" := PyNum (Finite 12)]> ∅))).

(** The worked example: budget 1000, from day 0 to day 40. *)
Definition example_row (d : Z) (spend : Q) : Row :=
  {| project_id := "P1"; project_name := "Puente"; budget := Finite 1000;
     start_date := day 0; end_date := day 40; date := day d;
     cumulative_spend := Finite spend |}.

Definition example_df : DataFrame :=
  [example_row 0 0; example_row 10 400; example_row 20 800].

(** A project given by its id, with the figures of the latest row of the
    worked example. *)
Definition tie_row (pid : string) : Row :=
  {| project_id := pid; project_name := pid; budget := Finite 1000;
     start_date := day 0; end_date := day 40; date := day 20;
     cumulative_spend := Finite 800 |}.

(** Two projects without a budget, the one named "B" first: every ratio is
    zero, so both scores are zero. *)
Definition no_budget_row (pid : string) : Row :=
  {| project_id := pid; project_name := pid; budget := Finite 0;
     start_date := day 0; end_date := day 40; date := day 20;
     cumulative_spend := Finite 800 |}.

Definition tie_df : DataFrame := [no_budget_row "B"; no_budget_row "A"].

(** Two usable points do not suffice when a third is not: the frame below
    has a missing spend on its first day, and the forecast is the fallback
    [900 * (40 / 20)] and not the value [1900] at day 40 of the line
    through the other two points. *)
Definition one_missing_df : DataFrame :=
  [ {| project_id := "P1"; project_name := "Puente"; budget := Finite 1000;
       start_date := day 0; end_date := day 40; date := day 0;
       cumulative_spend := NaN |};
    example_row 10 400; example_row 20 900 ].

(** A project whose end date lies before its start date, with its only
    point before the start as well. *)
Definition reversed_dates_row : Row :=
  {| project_id := "P1"; project_name := "Puente"; budget := Finite 1000;
     start_date := day 40; end_date := day 0; date := day 10;
     cumulative_spend := Finite 800 |}.

(** The recommendations in the order in which the page appends them, for
    the outcomes of its three tests. *)
Definition rec_reasons (c1 c2 c3 : bool) (variance_pct : pyfloat) : list string :=
  if c1 || c2 || c3 then
    ((if c1 then [rec_variance (fmul variance_pct (Finite 100))] else []) ++
     (if c2 then [rec_forecast] else []) ++
     (if c3 then [rec_early] else []))%list
  else [rec_default].

(** The order of [load_data]: by project, then by date, no date last. *)
Definition load_order (a b : Row) : Prop :=
  str_lt (project_id a) (project_id b) ∨
  (project_id a = project_id b ∧ date_leb_na_last (date a) (date b) = true).

(** Two projects, their rows interleaved and out of order. *)
Definition mixed_df : DataFrame :=
  [ tie_row "B";
    {| project_id := "A"; project_name := "Acueducto"; budget := Finite 500;
       start_date := day 0; end_date := day 30; date := day 20;
       cumulative_spend := Finite 300 |};
    {| project_id := "A"; project_name := "Acueducto"; budget := Finite 500;
       start_date := day 0; end_date := day 30; date := day 10;
       cumulative_spend := Finite 100 |} ].

(** A dict without [variance_pct] and [risk_score]. *)
Definition partial_kpis : gmap string pyval :=
  <["budget" := PyNum (Finite 1000)]>
  (<["forecast_to_complete" := PyNum (Finite 1600)]> ∅).

(** Whether a key is missing. *)
Definition absent (kpis : gmap string pyval) (key : string) : bool :=
  match kpis !! key with
  | None => true
  | Some _ => false
  end.

(** Ids that never go down. *)
Definition id_le (a b : string) : Prop := a = b ∨ str_lt a b.

(** The six entries that the recommendations read, for the worked example. *)
Definition example_page_kpis : gmap string pyval :=
  <["variance_pct" := PyNum (Finite (-1 # 5))]>
  (<["forecast_to_complete" := PyNum (Finite 1600)]>
  (<["budget" := PyNum (Finite 1000)]>
  (<["days_elapsed" := PyNum (Finite 20)]>
  (<["days_total" := PyNum (Finite 40)]>
  (<["pct_execution" := PyNum (Finite (4 # 5))]> ∅))))).

(** * Properties *)

(** ** Sorting *)

Section sort_values_facts.
Context {A K : Type} (isna : K → bool) (leb : K → K → bool) (key : A → K).

Lemma insert_sorted_Permutation (x : A) (l : list A) :
  Permutation (insert_sorted leb key x l) (x :: l).
Proof.
  induction l as [| y l IH]; simpl.
  - reflexivity.
  - destruct (leb (key x) (key y)).
    + reflexivity.
    + rewrite IH. apply perm_swap.
Qed.

Lemma argsort_Permutation (l : list A) : Permutation (argsort leb key l) l.
Proof.
  induction l as [| x l IH]; simpl.
  - reflexivity.
  - rewrite insert_sorted_Permutation. now rewrite IH.
Qed.

Lemma filter_split_Permutation (p : A → bool) (l : list A) :
  Permutation (List.filter (λ r, negb (p r)) l ++ List.filter p l) l.
Proof.
  induction l as [| x l IH]; simpl.
  - reflexivity.
  - destruct (p x); simpl.
    + rewrite <- Permutation_middle. now rewrite IH.
    + now rewrite IH.
Qed.

Lemma sort_values_Permutation (ascending : bool) (rows : list A) :
  Permutation (sort_values isna leb key ascending rows) rows.
Proof.
  unfold sort_values.
  etransitivity; [| apply (filter_split_Permutation (λ r, isna (key r)) rows)].
  apply Permutation_app_tail.
  destruct ascending.
  - apply argsort_Permutation.
  - etransitivity; [symmetry; apply Permutation_rev |].
    etransitivity; [apply argsort_Permutation |].
    symmetry. apply Permutation_rev.
Qed.

Lemma sort_values_last (ascending : bool) (r : A) (rows : list A) :
  ∃ latest, In latest (r :: rows) ∧
    iloc_last (sort_values isna leb key ascending (r :: rows)) = Ok latest.
Proof.
  pose proof (sort_values_Permutation ascending (r :: rows)) as HP.
  unfold iloc_last.
  destruct (last (sort_values isna leb key ascending (r :: rows))) as [a |] eqn:E.
  - exists a. split; [| reflexivity].
    apply last_Some in E as [l' E].
    eapply Permutation_in; [exact HP |].
    rewrite E. apply in_or_app. right. now left.
  - apply last_None in E. rewrite E in HP.
    apply Permutation_nil in HP. discriminate HP.
Qed.

End sort_values_facts.

(** *** Stability *)

Section stable_sort.
Context {A K : Type} (isna : K → bool) (leb : K → K → bool) (key : A → K).
Context (leb_total : ∀ a b, isna a = false → isna b = false →
                            leb a b = true ∨ leb b a = true).
Context (leb_trans : ∀ a b c, leb a b = true → leb b c = true → leb a c = true).

Lemma Forall_perm (P : A → Prop) (l l' : list A) :
  Permutation l l' → Forall P l → Forall P l'.
Proof.
  intros Hp Hl. now rewrite <- Hp.
Qed.

Lemma insert_sorted_asc (tie : relation A) (x : A) (l : list A) :
  has_key isna key x → Forall (has_key isna key) l →
  Forall (tie x) l → StronglySorted (asc leb key tie) l →
  StronglySorted (asc leb key tie) (insert_sorted leb key x l).
Proof.
  intros Hx Hl Htie Hs.
  induction Hs as [| y l Hs IH Hy]; simpl.
  - repeat constructor.
  - apply Forall_cons in Hl as [Hky Hl]. apply Forall_cons in Htie as [Hxy Htie].
    destruct (leb (key x) (key y)) eqn:E.
    + constructor; [now constructor |].
      constructor; [split; auto |].
      rewrite Forall_forall in Hy, Htie |- *. intros z Hz.
      destruct (Hy z Hz) as [Hyz _]. split; [eauto | intros _; auto].
    + constructor; [now apply IH |].
      apply (Forall_perm _ (x :: l));
        [symmetry; apply insert_sorted_Permutation |].
      constructor; [| exact Hy].
      split; [| congruence].
      destruct (leb_total (key x) (key y) Hx Hky); congruence.
Qed.

Lemma argsort_asc (tie : relation A) (l : list A) :
  Forall (has_key isna key) l → StronglySorted tie l →
  StronglySorted (asc leb key tie) (argsort leb key l).
Proof.
  intros Hl Hs. induction Hs as [| x l Hs IH Hx]; simpl.
  - constructor.
  - apply Forall_cons in Hl as [Hkx Hl].
    apply insert_sorted_asc; auto.
    + eapply Forall_perm; [symmetry; apply argsort_Permutation | exact Hl].
    + eapply Forall_perm; [symmetry; apply argsort_Permutation | exact Hx].
Qed.

Lemma StronglySorted_rev (R : relation A) (l : list A) :
  StronglySorted R l → StronglySorted (flip R) (rev l).
Proof.
  induction 1 as [| x l Hs IH Hx]; simpl.
  - constructor.
  - apply StronglySorted_app. split; [| split; [exact IH | repeat constructor]].
    intros x1 x2 H1 H2. apply list_elem_of_singleton in H2 as ->.
    rewrite Forall_forall in Hx. apply Hx.
    apply list_elem_of_In, in_rev, list_elem_of_In. exact H1.
Qed.

Lemma StronglySorted_filter (R : relation A) (p : A → bool) (l : list A) :
  StronglySorted R l → StronglySorted R (List.filter p l).
Proof.
  induction 1 as [| x l Hs IH Hx]; simpl.
  - constructor.
  - destruct (p x); [| exact IH].
    constructor; [exact IH |].
    rewrite Forall_forall in Hx |- *. intros y Hy.
    apply Hx. apply list_elem_of_In in Hy. apply filter_In in Hy as [Hy _].
    now apply list_elem_of_In.
Qed.

(** A descending sort leaves the rows by descending key, the rows without
    a key last, and rows with equal keys, or without one, in the order in
    which they came. *)
Lemma sort_values_descending (tie : relation A) (rows : list A) :
  StronglySorted tie rows →
  StronglySorted (nan_last isna leb key tie) (sort_values isna leb key false rows).
Proof.
  intros Hs. unfold sort_values.
  set (non := List.filter (λ r, negb (isna (key r))) rows).
  set (nans := List.filter (λ r, isna (key r)) rows).
  assert (Hnon : Forall (has_key isna key) non).
  { rewrite Forall_forall. intros x Hx. apply list_elem_of_In in Hx.
    apply filter_In in Hx as [_ Hx]. unfold has_key.
    now destruct (isna (key x)). }
  assert (Hnans : Forall (λ x, isna (key x) = true) nans).
  { rewrite Forall_forall. intros x Hx. apply list_elem_of_In in Hx.
    now apply filter_In in Hx as [_ Hx]. }
  assert (Hsorted : StronglySorted (desc leb key tie) (rev (argsort leb key (rev non)))).
  { apply (StronglySorted_rev (asc leb key (flip tie))).
    apply argsort_asc.
    - rewrite Forall_forall in Hnon |- *. intros x Hx. apply Hnon.
      apply list_elem_of_In, in_rev in Hx. now apply list_elem_of_In.
    - apply StronglySorted_rev. now apply StronglySorted_filter. }
  assert (Hperm : Permutation (rev (argsort leb key (rev non))) non).
  { etransitivity; [symmetry; apply Permutation_rev |].
    etransitivity; [apply argsort_Permutation |].
    symmetry; apply Permutation_rev. }
  apply StronglySorted_app. split; [| split].
  - intros x1 x2 H1 H2.
    rewrite Forall_forall in Hnon, Hnans.
    rewrite Hperm in H1.
    unfold nan_last. rewrite (Hnon x1 H1), (Hnans x2 H2). exact I.
  - apply (Forall_perm _ _ _ (Permutation_sym Hperm)) in Hnon.
    clear Hperm. induction Hsorted as [| x l Hl IH Hx]; constructor.
    + apply IH. now apply Forall_cons in Hnon as [_ ?].
    + apply Forall_cons in Hnon as [Hkx Hkl].
      rewrite Forall_forall in Hx, Hkl |- *. intros y Hy.
      unfold nan_last. rewrite Hkx, (Hkl y Hy). auto.
  - pose proof (StronglySorted_filter tie (λ r, isna (key r)) rows Hs) as Hn.
    fold nans in Hn.
    induction Hn as [| x l Hl IH Hx]; constructor.
    + apply IH. now apply Forall_cons in Hnans as [_ ?].
    + apply Forall_cons in Hnans as [Hxn Hln].
      rewrite Forall_forall in Hx, Hln |- *. intros y Hy.
      unfold nan_last. rewrite Hxn, (Hln y Hy). auto.
Qed.

End stable_sort.

(** ** Day counts *)

Lemma days_or_one_ge_1 (d : Timedelta) : 1 ≤ days_or_one d.
Proof.
  unfold days_or_one.
  destruct (td_days d) as [n |]; [| lia].
  destruct (0 <? n) eqn:E; [| lia].
  apply Z.ltb_lt in E. lia.
Qed.

Lemma truthy_of_int (z : Z) : z ≠ 0 → truthy (of_int z) = true.
Proof.
  intros Hz. unfold truthy, of_int.
  destruct (Qeq_bool (inject_Z z) 0) eqn:E; [| reflexivity].
  apply Qeq_bool_eq in E. unfold Qeq in E. simpl in E. lia.
Qed.

Lemma py_truediv_truthy (x y : pyfloat) :
  truthy y = true → py_truediv x y = Ok (fdiv x y).
Proof.
  intros H. unfold py_truediv. now rewrite H.
Qed.

(** ** What [compute_kpis] computes on a frame with a first row *)

Lemma forecast_fallback_Ok (ls : pyfloat) (dt de : Z) :
  1 ≤ de → forecast_fallback ls dt de = Ok (fallback_value ls dt de).
Proof.
  intros Hde. unfold forecast_fallback, fallback_value.
  rewrite py_truediv_truthy by (apply truthy_of_int; lia).
  reflexivity.
Qed.

Lemma ratio_or_zero_Ok (q b : pyfloat) :
  (if truthy b then py_truediv q b else Ok (Finite 0)) = Ok (ratio_or_zero q b).
Proof.
  unfold ratio_or_zero. destruct (truthy b) eqn:E; [| reflexivity].
  now apply py_truediv_truthy.
Qed.

(** On a frame that has a first row [compute_kpis] raises nothing: it
    returns the values of [kpis_of] for the budget of that row and the row
    that sorting by date puts last. *)
Lemma compute_kpis_locals_spec (r : Row) (df : DataFrame) :
  ∃ latest, In latest (r :: df) ∧
    iloc_last (sort_values ts_isna ts_leb date true (r :: df)) = Ok latest ∧
    compute_kpis_locals (r :: df) = Ok (kpis_of (r :: df) (budget r) latest).
Proof.
  destruct (sort_values_last ts_isna ts_leb date true r df) as (latest & Hin & Hlast).
  exists latest. split; [exact Hin |]. split; [exact Hlast |].
  unfold compute_kpis_locals.
  change (iloc_first (map budget (r :: df))) with (Ok (budget r)).
  cbn [bind]. rewrite Hlast. cbn [bind].
  set (de := days_or_one (ts_sub (date latest) (ts_min (map start_date (r :: df))))).
  assert (Hde : 1 ≤ de) by apply days_or_one_ge_1.
  assert (Ht : truthy (of_int de) = true) by (apply truthy_of_int; lia).
  rewrite !ratio_or_zero_Ok. cbn [bind].
  replace (ratio_or_zero (cumulative_spend latest) (of_int de))
    with (fdiv (cumulative_spend latest) (of_int de))
    by (unfold ratio_or_zero; now rewrite Ht).
  rewrite forecast_fallback_Ok by exact Hde.
  unfold kpis_of, forecast_value.
  destruct (forecast_fit _ _ _ _ _) as [f | e]; cbn [try_except bind];
    rewrite ratio_or_zero_Ok; reflexivity.
Qed.

Lemma compute_kpis_spec (r : Row) (df : DataFrame) :
  ∃ latest, In latest (r :: df) ∧
    iloc_last (sort_values ts_isna ts_leb date true (r :: df)) = Ok latest ∧
    compute_kpis (r :: df) = Ok (kpis_dict (kpis_of (r :: df) (budget r) latest)).
Proof.
  destruct (compute_kpis_locals_spec r df) as (latest & Hin & Hlast & Hk).
  exists latest. repeat split; try assumption.
  unfold compute_kpis. now rewrite Hk.
Qed.

(** ** The returned dict *)

(** The entries of the returned dict. *)
Lemma lookup_budget (k : kpi_locals) :
  kpis_dict k !! "budget" = Some (PyNum (kpi_budget k)).
Proof. reflexivity. Qed.

Lemma lookup_latest_spend (k : kpi_locals) :
  kpis_dict k !! "latest_spend" = Some (PyNum (kpi_latest_spend k)).
Proof. reflexivity. Qed.

Lemma lookup_pct_execution (k : kpi_locals) :
  kpis_dict k !! "pct_execution" = Some (PyNum (kpi_pct_execution k)).
Proof. reflexivity. Qed.

Lemma lookup_variance_pct (k : kpi_locals) :
  kpis_dict k !! "variance_pct" = Some (PyNum (kpi_variance_pct k)).
Proof. reflexivity. Qed.

Lemma lookup_burn_rate (k : kpi_locals) :
  kpis_dict k !! "burn_rate" = Some (PyNum (kpi_burn_rate k)).
Proof. reflexivity. Qed.

Lemma lookup_days_elapsed (k : kpi_locals) :
  kpis_dict k !! "days_elapsed" = Some (PyNum (of_int (kpi_days_elapsed k))).
Proof. reflexivity. Qed.

Lemma lookup_days_total (k : kpi_locals) :
  kpis_dict k !! "days_total" = Some (PyNum (of_int (kpi_days_total k))).
Proof. reflexivity. Qed.

Lemma lookup_forecast_to_complete (k : kpi_locals) :
  kpis_dict k !! "forecast_to_complete" = Some (PyNum (kpi_forecast_to_complete k)).
Proof. reflexivity. Qed.

Lemma lookup_risk_score (k : kpi_locals) :
  kpis_dict k !! "risk_score" = Some (PyNum (kpi_risk_score k)).
Proof. reflexivity. Qed.

Lemma lookup_latest_date (k : kpi_locals) :
  kpis_dict k !! "latest_date" = Some (PyStamp (kpi_latest_date k)).
Proof. reflexivity. Qed.

Lemma compute_kpis_of_locals (df : DataFrame) (k : kpi_locals) :
  compute_kpis_locals df = Ok k → compute_kpis df = Ok (kpis_dict k).
Proof.
  intros H. unfold compute_kpis. now rewrite H.
Qed.

#[global] Opaque kpis_dict.

(** ** The empty frame *)

(** C1, as the code has it: on a frame without rows [compute_kpis] fails
    with Python's [IndexError], raised by the first positional access
    [.iloc[0]], and so returns no record at all, zero-valued or other. *)
Theorem compute_kpis_empty_raises_IndexError :
  compute_kpis [] = Err IndexError ∧ ∀ d, compute_kpis [] ≠ Ok d.
Proof.
  split; [reflexivity | intros d H; discriminate H].
Qed.

(** C1, as stated, fails: the error that reaches the caller is not one
    named [EmptySeriesError]. *)
Lemma compute_kpis_empty_not_EmptySeriesError :
  ¬ (∀ df : DataFrame, df = [] → compute_kpis df = Err "EmptySeriesError").
Proof.
  intros H. specialize (H [] eq_refl). discriminate H.
Qed.

(** ** Day counts and the burn rate *)

(** C7: whatever the dates of a frame with at least one row (an end
    before the start, equal dates, a latest point before the start, missing
    dates), [compute_kpis] returns [days_total >= 1] and
    [days_elapsed >= 1]. *)
Theorem compute_kpis_days_at_least_one (r : Row) (df : DataFrame) :
  ∃ d dt de,
    compute_kpis (r :: df) = Ok d ∧
    d !! "days_total" = Some (PyNum (of_int dt)) ∧
    d !! "days_elapsed" = Some (PyNum (of_int de)) ∧
    1 ≤ dt ∧ 1 ≤ de.
Proof.
  destruct (compute_kpis_spec r df) as (latest & _ & _ & Hk).
  eexists _, _, _. split; [exact Hk |].
  split; [apply lookup_days_total |].
  split; [apply lookup_days_elapsed |].
  split; apply days_or_one_ge_1.
Qed.

Lemma reversed_dates_days :
  ∃ k,
    compute_kpis_locals [reversed_dates_row] = Ok k ∧
    kpi_days_total k = 1 ∧ kpi_days_elapsed k = 1 ∧
    kpi_burn_rate k = Finite 800.
Proof.
  eexists. split; [vm_compute; reflexivity |].
  repeat split; reflexivity.
Qed.

(** C10: on a frame with at least one row the guard [if days_elapsed] of
    the burn rate holds, so the [0] of its [else] is never taken:
    [burn_rate] is the quotient [latest_spend / days_elapsed], which does
    not raise. *)
Theorem burn_rate_guard_always_holds (r : Row) (df : DataFrame) :
  ∃ d ls de br,
    compute_kpis (r :: df) = Ok d ∧
    d !! "latest_spend" = Some (PyNum ls) ∧
    d !! "days_elapsed" = Some (PyNum (of_int de)) ∧
    d !! "burn_rate" = Some (PyNum br) ∧
    1 ≤ de ∧
    truthy (of_int de) = true ∧
    py_truediv ls (of_int de) = Ok br.
Proof.
  destruct (compute_kpis_spec r df) as (latest & _ & _ & Hk).
  eexists _, _, _, _. split; [exact Hk |].
  split; [apply lookup_latest_spend |].
  split; [apply lookup_days_elapsed |].
  split; [apply lookup_burn_rate |].
  cbn [kpis_of kpi_latest_spend kpi_days_elapsed kpi_burn_rate].
  pose proof (days_or_one_ge_1
    (ts_sub (date latest) (ts_min (map start_date (r :: df))))) as Hde.
  split; [exact Hde |].
  assert (Ht : ∀ z, 1 ≤ z → truthy (of_int z) = true)
    by (intros z Hz; apply truthy_of_int; lia).
  split; [now apply Ht |].
  apply py_truediv_truthy. now apply Ht.
Qed.

(** ** The budget guard *)

Lemma truthy_zero (q : Q) : (q == 0)%Q → truthy (Finite q) = false.
Proof.
  intros Hq. unfold truthy.
  apply Qeq_eq_bool in Hq. now rewrite Hq.
Qed.

(** C2, as the code has it: when the budget (of the first row) is zero,
    [compute_kpis] raises nothing and returns [pct_execution = 0] and
    [variance_pct = 0]; [overload] is [0] as well, and with both terms of
    the weighted sum at zero [risk_score] is [0]. *)
Theorem compute_kpis_zero_budget (r : Row) (df : DataFrame) (q : Q) :
  budget r = Finite q → (q == 0)%Q →
  ∃ k,
    compute_kpis_locals (r :: df) = Ok k ∧
    compute_kpis (r :: df) = Ok (kpis_dict k) ∧
    kpis_dict k !! "pct_execution" = Some (PyNum (Finite 0)) ∧
    kpis_dict k !! "variance_pct" = Some (PyNum (Finite 0)) ∧
    kpi_overload k = Finite 0 ∧
    kpis_dict k !! "risk_score" = Some (PyNum (Finite 0)).
Proof.
  intros Hb Hq.
  destruct (compute_kpis_locals_spec r df) as (latest & _ & _ & Hk).
  exists (kpis_of (r :: df) (budget r) latest).
  split; [exact Hk |].
  split; [now apply compute_kpis_of_locals |].
  assert (Ht : truthy (budget r) = false) by (rewrite Hb; now apply truthy_zero).
  assert (Hz : ∀ x, ratio_or_zero x (budget r) = Finite 0)
    by (intros x; unfold ratio_or_zero; now rewrite Ht).
  rewrite lookup_pct_execution, lookup_variance_pct, lookup_risk_score.
  cbn [kpis_of kpi_pct_execution kpi_variance_pct kpi_overload kpi_risk_score].
  rewrite !Hz. repeat split; reflexivity.
Qed.

Lemma compute_kpis_zero_budget_witness :
  budget zero_budget_row = Finite 0 ∧ (0 == 0)%Q ∧
  ∃ k,
    compute_kpis_locals [zero_budget_row] = Ok k ∧
    compute_kpis [zero_budget_row] = Ok (kpis_dict k) ∧
    kpis_dict k !! "pct_execution" = Some (PyNum (Finite 0)) ∧
    kpis_dict k !! "variance_pct" = Some (PyNum (Finite 0)) ∧
    kpi_overload k = Finite 0 ∧
    kpis_dict k !! "risk_score" = Some (PyNum (Finite 0)).
Proof.
  split; [reflexivity |]. split; [reflexivity |].
  apply (compute_kpis_zero_budget zero_budget_row [] 0); reflexivity.
Defined.

(** C2, as stated, fails for a missing budget: the guard lets a nan
    through, and the three quotients are nan, not 0. *)
Lemma compute_kpis_missing_budget_nan :
  ∃ k,
    compute_kpis_locals [missing_budget_row] = Ok k ∧
    compute_kpis [missing_budget_row] = Ok (kpis_dict k) ∧
    kpis_dict k !! "pct_execution" = Some (PyNum NaN) ∧
    kpis_dict k !! "variance_pct" = Some (PyNum NaN) ∧
    kpi_overload k = NaN ∧
    kpis_dict k !! "pct_execution" ≠ Some (PyNum (Finite 0)).
Proof.
  eexists. split; [vm_compute; reflexivity |].
  split; [apply compute_kpis_of_locals; vm_compute; reflexivity |].
  rewrite lookup_pct_execution, lookup_variance_pct.
  repeat split; try reflexivity.
  intros H. discriminate H.
Qed.

(** ** The risk score *)

Lemma Qle_bool_false (a b : Q) : Qle_bool a b = false → (b < a)%Q.
Proof.
  intros H. apply Qnot_le_lt. intros Hle.
  apply Qle_bool_iff in Hle. congruence.
Qed.

(** A clipped value is within the bounds unless it is nan. *)
Lemma np_clip_in_range (x : pyfloat) :
  fleb (Finite (-1000)) (np_clip x (Finite (-1000)) (Finite 1000)) &&
  fleb (np_clip x (Finite (-1000)) (Finite 1000)) (Finite 1000) = negb (isnan x).
Proof.
  destruct x as [q | | |]; try reflexivity.
  unfold np_clip, np_maximum, np_minimum. cbn [isnan fltb negb].
  destruct (Qle_bool (-1000) q) eqn:E1; cbn [negb isnan fltb].
  - destruct (Qle_bool q 1000) eqn:E2; cbn [negb fleb].
    + now rewrite E1, E2.
    + reflexivity.
  - apply Qle_bool_false in E1.
    destruct (Qle_bool (-1000) 1000) eqn:E2; [reflexivity | discriminate E2].
Qed.

(** C3, as the code has it: on a frame with at least one row [risk_score]
    is [np.clip] of [100 * (0.6 * variance_pct + 0.4 * overload)] to
    [-1000, 1000], where [overload] is
    [(forecast_to_complete - budget) / budget], or [0] for a zero budget;
    it lies within [-1000, 1000] exactly when that weighted sum is not
    nan, and is nan otherwise. *)
Theorem risk_score_is_clipped (r : Row) (df : DataFrame) :
  ∃ k raw,
    compute_kpis_locals (r :: df) = Ok k ∧
    compute_kpis (r :: df) = Ok (kpis_dict k) ∧
    kpis_dict k !! "risk_score" = Some (PyNum (kpi_risk_score k)) ∧
    kpi_overload k =
      ratio_or_zero (fsub (kpi_forecast_to_complete k) (kpi_budget k)) (kpi_budget k) ∧
    raw = risk_raw (kpi_variance_pct k) (kpi_overload k) ∧
    kpi_risk_score k = np_clip raw (Finite (-1000)) (Finite 1000) ∧
    fleb (Finite (-1000)) (kpi_risk_score k) && fleb (kpi_risk_score k) (Finite 1000)
      = negb (isnan raw) ∧
    isnan (kpi_risk_score k) = isnan raw.
Proof.
  destruct (compute_kpis_locals_spec r df) as (latest & _ & _ & Hk).
  eexists _, _. split; [exact Hk |].
  split; [now apply compute_kpis_of_locals |].
  split; [apply lookup_risk_score |].
  split; [reflexivity |]. split; [reflexivity |]. split; [reflexivity |].
  cbn [kpis_of kpi_risk_score kpi_variance_pct kpi_overload].
  split; [apply np_clip_in_range |].
  generalize (risk_raw
    (ratio_or_zero (fsub (cumulative_spend latest) (budget r)) (budget r))
    (ratio_or_zero
       (fsub
          (forecast_value (r :: df) (ts_min (map start_date (r :: df)))
             (cumulative_spend latest)
             (days_or_one
                (ts_sub (ts_max (map end_date (r :: df)))
                   (ts_min (map start_date (r :: df)))))
             (days_or_one
                (ts_sub (date latest) (ts_min (map start_date (r :: df))))))
          (budget r)) (budget r))).
  intros x. destruct x as [q | | |]; try reflexivity.
  unfold np_clip, np_maximum, np_minimum. cbn [isnan fltb].
  destruct (Qle_bool (-1000) q); cbn [negb isnan fltb].
  - now destruct (Qle_bool q 1000).
  - reflexivity.
Qed.

(** C3, as stated, fails: with the latest spend missing the weighted sum is
    nan, [np.clip] returns it, and nan is not within [-1000, 1000]. *)
Lemma risk_score_missing_spend_nan :
  ∃ k,
    compute_kpis_locals [missing_spend_row] = Ok k ∧
    compute_kpis [missing_spend_row] = Ok (kpis_dict k) ∧
    kpis_dict k !! "risk_score" = Some (PyNum NaN) ∧
    fleb (Finite (-1000)) NaN = false ∧ fleb NaN (Finite 1000) = false.
Proof.
  eexists. split; [vm_compute; reflexivity |].
  split; [apply compute_kpis_of_locals; vm_compute; reflexivity |].
  rewrite lookup_risk_score. repeat split; reflexivity.
Qed.

(** ** The risk flag *)

Lemma flag_risk_messages_numeric (kpis : gmap string pyval)
    (variance_threshold risk_threshold v r f b : pyfloat) :
  kpis !! "variance_pct" = Some (PyNum v) →
  kpis !! "risk_score" = Some (PyNum r) →
  kpis !! "forecast_to_complete" = Some (PyNum f) →
  kpis !! "budget" = Some (PyNum b) →
  let c1 := fgeb (fabs v) variance_threshold in
  let c2 := fgeb (fabs r) risk_threshold in
  let c3 := fgtb f b in
  flag_risk_messages kpis variance_threshold risk_threshold
    = Ok (c1 || c2 || c3, reasons c1 c2 c3 v r).
Proof.
  intros Hv Hr Hf Hb c1 c2 c3.
  unfold flag_risk_messages, dict_get, dict_item.
  rewrite Hv, Hr, Hf, Hb.
  cbv [default from_option id py_abs py_gt py_mul py_num bind].
  subst c1 c2 c3. unfold reasons.
  destruct (fgeb (fabs v) variance_threshold), (fgeb (fabs r) risk_threshold),
    (fgtb f b); reflexivity.
Qed.

Lemma flag_risk_of_messages (kpis : gmap string pyval)
    (variance_threshold risk_threshold : pyfloat) (flag : bool) (messages : list string) :
  flag_risk_messages kpis variance_threshold risk_threshold = Ok (flag, messages) →
  flag_risk kpis variance_threshold risk_threshold
    = Ok (flag, String.concat " | " messages).
Proof.
  intros H. unfold flag_risk. now rewrite H.
Qed.

(** C6: on a dict that holds the four numbers, [flag_risk] returns
    [is_risky = True] exactly when one of
    [abs(variance_pct) >= variance_threshold],
    [abs(risk_score) >= risk_threshold] and
    [forecast_to_complete > budget] holds, and its message is made of the
    reasons of the tests that hold, in that order: variance, risk score,
    forecast over budget; the message that no risk was found stands alone,
    and only when none of the three holds. *)
Theorem flag_risk_conditions_and_order (kpis : gmap string pyval)
    (variance_threshold risk_threshold v r f b : pyfloat) :
  kpis !! "variance_pct" = Some (PyNum v) →
  kpis !! "risk_score" = Some (PyNum r) →
  kpis !! "forecast_to_complete" = Some (PyNum f) →
  kpis !! "budget" = Some (PyNum b) →
  let c1 := fgeb (fabs v) variance_threshold in
  let c2 := fgeb (fabs r) risk_threshold in
  let c3 := fgtb f b in
  flag_risk_messages kpis variance_threshold risk_threshold
    = Ok (c1 || c2 || c3, reasons c1 c2 c3 v r) ∧
  flag_risk kpis variance_threshold risk_threshold
    = Ok (c1 || c2 || c3, String.concat " | " (reasons c1 c2 c3 v r)) ∧
  (c1 || c2 || c3 = true ↔ c1 = true ∨ c2 = true ∨ c3 = true) ∧
  (reasons c1 c2 c3 v r = [msg_no_risk] ↔ c1 = false ∧ c2 = false ∧ c3 = false).
Proof.
  intros Hv Hr Hf Hb c1 c2 c3.
  pose proof (flag_risk_messages_numeric kpis variance_threshold risk_threshold
                v r f b Hv Hr Hf Hb) as Hm.
  split; [exact Hm |].
  split; [now apply flag_risk_of_messages |].
  split.
  - destruct c1, c2, c3; cbn; intuition discriminate.
  - unfold reasons. destruct c1, c2, c3; cbn; intuition discriminate.
Qed.

Lemma flag_risk_conditions_and_order_witness :
  example_kpis !! "variance_pct" = Some (PyNum (Finite (-1 # 5))) ∧
  example_kpis !! "risk_score" = Some (PyNum (Finite 12)) ∧
  example_kpis !! "forecast_to_complete" = Some (PyNum (Finite 1600)) ∧
  example_kpis !! "budget" = Some (PyNum (Finite 1000)) ∧
  flag_risk_messages example_kpis default_variance_threshold default_risk_threshold
    = Ok (true, [msg_variance (Finite (-20)); msg_risk (Finite 12); msg_overrun]).
Proof.
  repeat (split; [reflexivity |]).
  apply (flag_risk_conditions_and_order example_kpis
           default_variance_threshold default_risk_threshold
           (Finite (-1 # 5)) (Finite 12) (Finite 1600) (Finite 1000));
    reflexivity.
Defined.

(** *** Missing keys *)

(** C9, at the failing input: on the empty dict with a variance threshold
    of [0.0] the test [abs(0) >= 0.0] holds, and building its message
    reads [kpis['variance_pct']], which raises [KeyError]. *)
Theorem flag_risk_missing_key_raises :
  flag_risk ∅ (Finite 0) default_risk_threshold = Err KeyError.
Proof.
  reflexivity.
Qed.

(** The same happens for the risk score when its threshold is [0.0]. *)
Lemma flag_risk_missing_risk_score_raises :
  flag_risk ∅ default_variance_threshold (Finite 0) = Err KeyError.
Proof.
  reflexivity.
Qed.

(** With the default thresholds the empty dict is read as four zeros. *)
Lemma flag_risk_empty_default :
  flag_risk ∅ default_variance_threshold default_risk_threshold
    = Ok (false, msg_no_risk).
Proof.
  reflexivity.
Qed.

Lemma fabs_zero : fabs (Finite 0) = Finite 0.
Proof. reflexivity. Qed.

Lemma fgeb_zero_positive (t : pyfloat) :
  fltb (Finite 0) t = true → fgeb (Finite 0) t = false.
Proof.
  unfold fgeb. destruct t as [q | | |]; cbn; try congruence.
  destruct (Qle_bool q 0); cbn; congruence.
Qed.

(** With thresholds above zero a missing key is never read again: the
    call returns, and a missing field counts as [0] in each test. *)
Lemma flag_risk_absent_as_zero (kpis : gmap string pyval)
    (variance_threshold risk_threshold : pyfloat) :
  fltb (Finite 0) variance_threshold = true →
  fltb (Finite 0) risk_threshold = true →
  numeric_or_absent kpis "variance_pct" →
  numeric_or_absent kpis "risk_score" →
  numeric_or_absent kpis "forecast_to_complete" →
  numeric_or_absent kpis "budget" →
  let v := read_or_zero kpis "variance_pct" in
  let r := read_or_zero kpis "risk_score" in
  let c1 := fgeb (fabs v) variance_threshold in
  let c2 := fgeb (fabs r) risk_threshold in
  let c3 := fgtb (read_or_zero kpis "forecast_to_complete") (read_or_zero kpis "budget") in
  flag_risk_messages kpis variance_threshold risk_threshold
    = Ok (c1 || c2 || c3, reasons c1 c2 c3 v r).
Proof.
  intros Hvt Hrt Hv Hr Hf Hb.
  apply fgeb_zero_positive in Hvt, Hrt.
  unfold flag_risk_messages, dict_get, dict_item, read_or_zero, numeric_or_absent in *.
  destruct (kpis !! "variance_pct") as [[v | ?] |]; [| contradiction |];
  destruct (kpis !! "risk_score") as [[r | ?] |]; try contradiction;
  destruct (kpis !! "forecast_to_complete") as [[f | ?] |]; try contradiction;
  destruct (kpis !! "budget") as [[b | ?] |]; try contradiction;
  cbv [default from_option id py_abs py_gt py_mul py_num bind];
  cbv zeta; rewrite ?fabs_zero, ?Hvt, ?Hrt; unfold reasons;
  repeat match goal with
         | |- context [fgeb ?a ?b] => destruct (fgeb a b)
         | |- context [fgtb ?a ?b] => destruct (fgtb a b)
         end; reflexivity.
Qed.

(** ** The worked example *)

(** The example of the specification: budget 1000, points (day 0, 0),
    (day 10, 400), (day 20, 800), start day 0 and end day 40.  In the exact
    arithmetic of this model the fitted line is [40 * x] and the figures
    are 1600, 0.60 and 12.  The doubles that [np.polyfit] computes, and the
    overload and the score that are computed from them, need not be these
    to the last digit, so this lemma gives the figures up to rounding
    only. *)
Lemma example_locals :
  compute_kpis_locals example_df =
    Ok {| kpi_budget := Finite 1000;
          kpi_latest_spend := Finite 800;
          kpi_pct_execution := Finite (4 # 5);
          kpi_variance_pct := Finite (-1 # 5);
          kpi_burn_rate := Finite 40;
          kpi_days_elapsed := 20;
          kpi_days_total := 40;
          kpi_forecast_to_complete := Finite 1600;
          kpi_overload := Finite (3 # 5);
          kpi_risk_score := Finite 12;
          kpi_latest_date := day 20 |}.
Proof.
  vm_compute. reflexivity.
Qed.

(** What the example shows without the fit: [variance_pct] is
    [(800 - 1000) / 1000], its absolute value reaches the default threshold
    of the variance, and that test alone makes [flag_risk] return [True],
    whatever the forecast and the score are. *)
Lemma worked_example_flagged :
  ∃ k,
    compute_kpis_locals example_df = Ok k ∧
    compute_kpis example_df = Ok (kpis_dict k) ∧
    kpi_latest_spend k = Finite 800 ∧
    kpi_days_elapsed k = 20 ∧
    kpi_days_total k = 40 ∧
    kpis_dict k !! "variance_pct" = Some (PyNum (fin (-20 # 100))) ∧
    fgeb (fabs (kpi_variance_pct k)) default_variance_threshold = true ∧
    ∃ c2 c3 message,
      flag_risk_messages (kpis_dict k) default_variance_threshold default_risk_threshold
        = Ok (true || c2 || c3, message) ∧
      ∃ text,
        flag_risk (kpis_dict k) default_variance_threshold default_risk_threshold
          = Ok (true, text).
Proof.
  eexists. split; [apply example_locals |].
  split; [apply compute_kpis_of_locals, example_locals |].
  rewrite lookup_variance_pct.
  do 5 (split; [reflexivity |]).
  match goal with
  | |- context [flag_risk (kpis_dict ?k) ?vt ?rt] =>
      pose proof (flag_risk_messages_numeric (kpis_dict k) vt rt _ _ _ _
                    (lookup_variance_pct k) (lookup_risk_score k)
                    (lookup_forecast_to_complete k) (lookup_budget k)) as Hm
  end.
  eexists _, _, _. split; [exact Hm |].
  eexists. erewrite flag_risk_of_messages by exact Hm. reflexivity.
Qed.

(** ** The summary *)

Lemma str_lt_trans (a b c : string) : str_lt a b → str_lt b c → str_lt a c.
Proof.
  unfold str_lt. intros Hab Hbc.
  apply OrderedTypeEx.String_as_OT.cmp_lt in Hab, Hbc.
  apply OrderedTypeEx.String_as_OT.cmp_lt.
  eapply OrderedTypeEx.String_as_OT.lt_trans; eassumption.
Qed.

Lemma str_lt_irrefl (a : string) : ¬ str_lt a a.
Proof.
  unfold str_lt. intros H.
  apply OrderedTypeEx.String_as_OT.cmp_lt in H.
  apply OrderedTypeEx.String_as_OT.lt_not_eq in H.
  apply H. reflexivity.
Qed.

Lemma insert_key_In (k k' : string) (ks : list string) :
  In k' (insert_key k ks) ↔ k' = k ∨ In k' ks.
Proof.
  induction ks as [| x ks IH]; simpl.
  - intuition.
  - destruct (String.compare k x) eqn:E; simpl.
    + apply String.compare_eq_iff in E. subst x. intuition.
    + intuition.
    + rewrite IH. intuition.
Qed.

Lemma insert_key_sorted (k : string) (ks : list string) :
  StronglySorted str_lt ks → StronglySorted str_lt (insert_key k ks).
Proof.
  induction 1 as [| x ks Hs IH Hx]; simpl.
  - repeat constructor.
  - destruct (String.compare k x) eqn:E.
    + now constructor.
    + constructor; [now constructor |].
      constructor; [exact E |].
      rewrite Forall_forall in Hx |- *. intros y Hy.
      eapply str_lt_trans; [exact E | now apply Hx].
    + constructor; [exact IH |].
      rewrite Forall_forall in Hx |- *. intros y Hy.
      apply list_elem_of_In, insert_key_In in Hy as [-> | Hy].
      * unfold str_lt. rewrite String.compare_antisym, E. reflexivity.
      * apply Hx. now apply list_elem_of_In.
Qed.

Lemma group_keys_sorted (df : DataFrame) : StronglySorted str_lt (group_keys df).
Proof.
  unfold group_keys. induction df as [| r df IH]; simpl.
  - constructor.
  - now apply insert_key_sorted.
Qed.

Lemma group_keys_In (df : DataFrame) (pid : string) :
  In pid (group_keys df) ↔ ∃ r, In r df ∧ project_id r = pid.
Proof.
  unfold group_keys. induction df as [| r df IH]; simpl.
  - split; [contradiction | intros (r & [] & _)].
  - rewrite insert_key_In, IH. split.
    + intros [-> | (r' & Hr' & E)]; eauto.
    + intros (r' & [-> | Hr'] & E); eauto.
Qed.

(** The entries of the dict, read as [summary_table] reads them. *)
Lemma dict_num_kpis_dict (k : kpi_locals) :
  dict_num (kpis_dict k) "budget" = Ok (kpi_budget k) ∧
  dict_num (kpis_dict k) "latest_spend" = Ok (kpi_latest_spend k) ∧
  dict_num (kpis_dict k) "pct_execution" = Ok (kpi_pct_execution k) ∧
  dict_num (kpis_dict k) "variance_pct" = Ok (kpi_variance_pct k) ∧
  dict_num (kpis_dict k) "forecast_to_complete" = Ok (kpi_forecast_to_complete k) ∧
  dict_num (kpis_dict k) "risk_score" = Ok (kpi_risk_score k).
Proof.
  unfold dict_num, dict_item.
  rewrite lookup_budget, lookup_latest_spend, lookup_pct_execution,
    lookup_variance_pct, lookup_forecast_to_complete, lookup_risk_score.
  repeat split; reflexivity.
Qed.

Lemma summary_row_Ok (pid : string) (r : Row) (grp : DataFrame) :
  ∃ k, compute_kpis_locals (r :: grp) = Ok k ∧
       summary_row (pid, r :: grp) = Ok (summary_of pid r k).
Proof.
  destruct (compute_kpis_locals_spec r grp) as (latest & _ & _ & Hk).
  eexists. split; [exact Hk |].
  unfold summary_row.
  rewrite (compute_kpis_of_locals _ _ Hk). cbn [bind map iloc_first].
  destruct (dict_num_kpis_dict (kpis_of (r :: grp) (budget r) latest))
    as (-> & -> & -> & -> & -> & ->).
  reflexivity.
Qed.

Lemma collect_summary_rows (df : DataFrame) (keys : list string) :
  (∀ pid, In pid keys → ∃ r, In r df ∧ project_id r = pid) →
  ∃ projects,
    collect summary_row
      (map (λ pid, (pid, List.filter (λ r, String.eqb (project_id r) pid) df)) keys)
      = Ok projects ∧
    map s_project_id projects = keys.
Proof.
  induction keys as [| pid keys IH]; intros Hkeys.
  - exists []. split; reflexivity.
  - destruct IH as (projects & Hc & Hm); [intros; apply Hkeys; now right |].
    destruct (Hkeys pid (or_introl eq_refl)) as (r & Hr & Hpid).
    assert (Hin : In r (List.filter (λ r, String.eqb (project_id r) pid) df)).
    { apply filter_In. split; [exact Hr |]. now apply String.eqb_eq. }
    destruct (List.filter (λ r, String.eqb (project_id r) pid) df)
      as [| r0 grp] eqn:E; [contradiction |].
    destruct (summary_row_Ok pid r0 grp) as (k & _ & Hrow).
    exists (summary_of pid r0 k :: projects).
    cbn [map collect]. rewrite E, Hrow. cbn [bind]. rewrite Hc. cbn [bind].
    split; [reflexivity |]. cbn. now rewrite Hm.
Qed.

(** *** The order of floats *)

Lemma fleb_total (a b : pyfloat) :
  isnan a = false → isnan b = false → fleb a b = true ∨ fleb b a = true.
Proof.
  intros Ha Hb.
  destruct a as [p | | |], b as [q | | |]; try discriminate; cbn; auto.
  destruct (Qlt_le_dec q p) as [H | H].
  - right. apply Qle_bool_iff. now apply Qlt_le_weak.
  - left. now apply Qle_bool_iff.
Qed.

Lemma fleb_trans (a b c : pyfloat) :
  fleb a b = true → fleb b c = true → fleb a c = true.
Proof.
  destruct a as [p | | |], b as [q | | |], c as [r | | |]; cbn; auto;
    try discriminate.
  rewrite !Qle_bool_iff. apply Qle_trans.
Qed.

(** *** The order of the rows *)

Lemma StronglySorted_impl {A} (R S : relation A) (l : list A) :
  (∀ x y, R x y → S x y) → StronglySorted R l → StronglySorted S l.
Proof.
  intros HRS. induction 1 as [| x l Hs IH Hx]; constructor; [exact IH |].
  eapply Forall_impl; [exact Hx | auto].
Qed.

Lemma StronglySorted_any {A} (l : list A) : StronglySorted (λ _ _, True) l.
Proof.
  induction l as [| x l IH]; constructor; [exact IH |].
  rewrite Forall_forall. auto.
Qed.

(** A row that may stand before another in a descending sort with the rows
    without a score last may do so by [score_order]. *)
Lemma score_order_of_nan_last (tie : relation SummaryRow) (x y : SummaryRow) :
  nan_last isnan fleb s_risk_score tie x y → score_order x y.
Proof.
  unfold nan_last, desc, score_order.
  destruct (isnan (s_risk_score x)), (isnan (s_risk_score y));
    intuition congruence.
Qed.

(** A score that is not nan is at most itself, so that [score_order] does
    hold between rows of equal scores, in either order. *)
Lemma score_order_ties (x y : SummaryRow) :
  s_risk_score x = s_risk_score y → score_order x y ∧ score_order y x.
Proof.
  unfold score_order. intros ->.
  destruct (s_risk_score y) as [q | | |]; cbn [isnan fleb]; auto.
  assert (Qle_bool q q = true) by apply Qle_bool_iff, Qle_refl. auto.
Qed.

(** C5, as the code has it: on a frame with at least one row
    [summary_table] returns one row for each project, and these rows come
    by descending [risk_score], the rows whose score is nan last: of two
    rows, the later one has a score that is nan or is at most the score of
    the earlier one.  Nothing is stated of the order of rows of equal
    score: it is not the order in which the projects first come in the
    input, as the example after this theorem shows. *)
Theorem summary_table_sorted (r : Row) (df : DataFrame) :
  ∃ projects rows,
    collect summary_row (groupby_project_id (r :: df)) = Ok projects ∧
    map s_project_id projects = group_keys (r :: df) ∧
    summary_table (r :: df) = Ok rows ∧
    Permutation rows projects ∧
    StronglySorted score_order rows.
Proof.
  destruct (collect_summary_rows (r :: df) (group_keys (r :: df)))
    as (projects & Hc & Hm); [intros pid; apply group_keys_In |].
  exists projects, (sort_values isnan fleb s_risk_score false projects).
  split; [exact Hc |]. split; [exact Hm |].
  split; [| split].
  - unfold summary_table. fold (groupby_project_id (r :: df)) in Hc.
    rewrite Hc. cbn [bind].
    destruct projects as [| p ps]; [| reflexivity].
    assert (Hin : In (project_id r) (group_keys (r :: df)))
      by (apply group_keys_In; exists r; split; [now left | reflexivity]).
    rewrite <- Hm in Hin. contradiction.
  - apply sort_values_Permutation.
  - apply (StronglySorted_impl (nan_last isnan fleb s_risk_score (λ _ _, True)));
      [apply score_order_of_nan_last |].
    apply sort_values_descending.
    + apply fleb_total.
    + apply fleb_trans.
    + apply StronglySorted_any.
Qed.

(** C5, as stated, fails on the order of ties: the two projects have no
    budget, so that the score of both is zero, and "B" comes first in the
    input, yet "A" is the first row of the summary ([groupby] hands the
    projects to the sort by ascending [project_id]). *)
Lemma summary_table_ties_not_in_input_order :
  ∃ rows,
    summary_table tie_df = Ok rows ∧
    map project_id tie_df = ["B"; "A"] ∧
    map s_risk_score rows = [Finite 0; Finite 0] ∧
    map s_project_id rows = ["A"; "B"].
Proof.
  eexists. split; [vm_compute; reflexivity |].
  repeat split; reflexivity.
Qed.

(** On an empty frame the loop builds no row and the sort raises. *)
Lemma summary_table_empty : summary_table [] = Err KeyError.
Proof. reflexivity. Qed.

(** ** The least-squares line *)

Local Open Scope Q_scope.

Lemma qlen_cons (a : Q) (l : list Q) : qlen (a :: l) == qlen l + 1.
Proof.
  unfold qlen. cbn [length]. rewrite Nat2Z.inj_succ, <- Z.add_1_r.
  now rewrite inject_Z_plus.
Qed.

Lemma qlen_nonneg (l : list Q) : 0 <= qlen l.
Proof.
  unfold qlen. change 0 with (inject_Z 0). rewrite <- Zle_Qle. lia.
Qed.

Lemma qsum_cons (a : Q) (l : list Q) : qsum (a :: l) = a + qsum l.
Proof. reflexivity. Qed.

Lemma qdot_cons (a b : Q) (x y : list Q) :
  qdot (a :: x) (b :: y) = a * b + qdot x y.
Proof. reflexivity. Qed.

Lemma sse_cons (xi yi : Q) (x y : list Q) (a b : Q) :
  sse (xi :: x) (yi :: y) a b
  = (yi - (a * xi + b)) * (yi - (a * xi + b)) + sse x y a b.
Proof. reflexivity. Qed.

Lemma sse_expand (x y : list Q) (a b : Q) :
  length x = length y →
  sse x y a b ==
    qdot y y - 2 * a * qdot x y - 2 * b * qsum y
    + a * a * qdot x x + 2 * a * b * qsum x + qlen x * (b * b).
Proof.
  revert y. induction x as [| xi x IH]; intros [| yi y] Hlen; try discriminate.
  - unfold sse, qdot, qsum, qlen. cbn. ring.
  - injection Hlen as Hlen.
    rewrite sse_cons, !qdot_cons, !qsum_cons, qlen_cons, (IH y Hlen). ring.
Qed.

Lemma shift_sq_nonneg (x : list Q) (d e : Q) : 0 <= shift_sq x d e.
Proof.
  unfold shift_sq. induction x as [| xi x IH]; cbn [map].
  - unfold qsum. cbn. lra.
  - rewrite qsum_cons.
    set (t := d * xi + e) in *. set (rest := qsum _) in *. nra.
Qed.

Lemma shift_sq_expand (x : list Q) (d e : Q) :
  shift_sq x d e == d * d * qdot x x + 2 * d * e * qsum x + qlen x * (e * e).
Proof.
  unfold shift_sq. induction x as [| xi x IH]; cbn [map].
  - unfold qdot, qsum, qlen. cbn. ring.
  - rewrite !qsum_cons, qdot_cons, qlen_cons, IH. ring.
Qed.

(** A solution of the normal equations is a least-squares line. *)
Lemma normal_equations_least_squares (x y : list Q) (s i : Q) :
  length x = length y →
  s * qdot x x + i * qsum x == qdot x y →
  s * qsum x + i * qlen x == qsum y →
  least_squares x y s i.
Proof.
  intros Hlen N1 N2 a b.
  rewrite !sse_expand by exact Hlen.
  pose proof (shift_sq_nonneg x (a - s) (b - i)) as H0.
  rewrite shift_sq_expand in H0.
  rewrite <- N1, <- N2.
  set (X := qsum x) in *. set (XX := qdot x x) in *. set (n := qlen x) in *.
  set (YY := qdot y y).
  apply Qle_minus_iff.
  match goal with
  | |- 0 <= ?e =>
      assert (E : e == (a - s) * (a - s) * XX + 2 * (a - s) * (b - i) * X
                       + n * ((b - i) * (b - i))) by ring
  end.
  rewrite E. exact H0.
Qed.

Lemma den_cons (a : Q) (x : list Q) : den (a :: x) == den x + shift_sq x (-1) a.
Proof.
  unfold den. rewrite shift_sq_expand, qdot_cons, qsum_cons, qlen_cons. ring.
Qed.

Lemma den_nonneg (x : list Q) : 0 <= den x.
Proof.
  induction x as [| a x IH].
  - unfold den, qlen, qdot, qsum. cbn. lra.
  - rewrite den_cons. pose proof (shift_sq_nonneg x (-1) a). lra.
Qed.

Lemma square_plus_nonneg_zero (u v : Q) :
  0 <= v → u * u + v == 0 → u == 0 ∧ v == 0.
Proof.
  intros Hv H.
  assert (Hu : 0 <= u * u) by nra.
  assert (Huu : u * u == 0) by lra.
  split; [| lra].
  apply Qmult_integral in Huu. now destruct Huu.
Qed.

Lemma shift_sq_zero (a : Q) (x : list Q) :
  shift_sq x (-1) a == 0 → Forall (λ xi, xi == a) x.
Proof.
  induction x as [| xi x IH]; intros H.
  - constructor.
  - unfold shift_sq in H. cbn [map] in H. rewrite qsum_cons in H.
    fold (shift_sq x (-1) a) in H.
    pose proof (shift_sq_nonneg x (-1) a) as Hrest.
    apply square_plus_nonneg_zero in H as [Ht Hr]; [| exact Hrest].
    constructor; [lra | now apply IH].
Qed.

Lemma den_zero_all_equal (x : list Q) :
  den x == 0 → Forall (λ xi, xi == hd 0 x) x.
Proof.
  destruct x as [| a x]; intros H.
  - constructor.
  - rewrite den_cons in H.
    pose proof (den_nonneg x). pose proof (shift_sq_nonneg x (-1) a).
    cbn [hd]. constructor; [reflexivity |].
    apply shift_sq_zero. lra.
Qed.

Lemma all_equal_sums (x0 : Q) (x : list Q) :
  Forall (λ xi, xi == x0) x →
  qsum x == qlen x * x0 ∧
  qdot x x == qlen x * (x0 * x0) ∧
  ∀ y, length x = length y → qdot x y == x0 * qsum y.
Proof.
  induction 1 as [| xi x Hxi Hx (IH1 & IH2 & IH3)].
  - split; [| split].
    + unfold qsum, qlen. cbn. ring.
    + unfold qdot, qsum, qlen. cbn. ring.
    + intros [| yi y] Hlen; [| discriminate]. unfold qdot, qsum. cbn. ring.
  - split; [| split].
    + rewrite qsum_cons, qlen_cons, IH1, Hxi. ring.
    + rewrite qdot_cons, qlen_cons, IH2, Hxi. ring.
    + intros [| yi y] Hlen; [discriminate |]. injection Hlen as Hlen.
      rewrite qdot_cons, qsum_cons, (IH3 y Hlen), Hxi. ring.
Qed.

Lemma qlen_positive (a : Q) (x : list Q) : 0 < qlen (a :: x).
Proof.
  rewrite qlen_cons. pose proof (qlen_nonneg x). lra.
Qed.

(** Whenever [polyfit1] returns, it returns a least-squares line. *)
Lemma polyfit1_least_squares (x y : list Q) (s i : Q) :
  length x = length y →
  polyfit1 x y = Ok (s, i) →
  least_squares x y s i.
Proof.
  intros Hlen Hfit. unfold polyfit1 in Hfit.
  fold (qlen x) in Hfit. fold (den x) in Hfit.
  destruct (Qeq_bool (den x) 0) eqn:Ed.
  - apply Qeq_bool_eq in Ed.
    destruct (Qeq_bool (hd 0 x) 0) eqn:E0; [discriminate |].
    apply Qeq_bool_neq in E0.
    injection Hfit as <- <-.
    destruct (all_equal_sums (hd 0 x) x (den_zero_all_equal x Ed))
      as (HX & HXX & HXY).
    specialize (HXY y Hlen).
    assert (Hn : ¬ qlen x == 0).
    { destruct x as [| a x]; [exfalso; apply E0; reflexivity |].
      pose proof (qlen_positive a x). lra. }
    apply normal_equations_least_squares; [exact Hlen | |];
      rewrite ?HXX, ?HXY, ?HX;
      revert E0 Hn; generalize (hd 0 x) (qlen x) (qsum y); intros x0 n Y E0 Hn;
      field; auto.
  - apply Qeq_bool_neq in Ed.
    injection Hfit as <- <-.
    apply normal_equations_least_squares; [exact Hlen | |];
      revert Ed; unfold den;
      generalize (qlen x) (qsum x) (qsum y) (qdot x x) (qdot x y);
      intros n X Y XX XY Ed; field; exact Ed.
Qed.

Lemma polyfit1_Err (x y : list Q) (e : exn) :
  polyfit1 x y = Err e → e = LinAlgError ∧ den x == 0 ∧ hd 0 x == 0.
Proof.
  unfold polyfit1. fold (qlen x). fold (den x).
  destruct (Qeq_bool (den x) 0) eqn:Ed; [| discriminate].
  destruct (Qeq_bool (hd 0 x) 0) eqn:E0; [| discriminate].
  intros [= <-]. apply Qeq_bool_eq in Ed, E0. auto.
Qed.

(** ** The forecast *)

(** A spend that is nan or infinite leaves a fallback that is nan or
    infinite: no product with it is a finite number. *)
Lemma fallback_value_not_finite (latest_spend : pyfloat) (days_total days_elapsed : Z) :
  isfinite latest_spend = false →
  isfinite (fallback_value latest_spend days_total days_elapsed) = false.
Proof.
  unfold fallback_value, of_int. cbn [fdiv fin].
  destruct latest_spend as [q | | |]; cbn [fmul isfinite]; try discriminate;
    intros _; try reflexivity;
    unfold fin; match goal with |- context [qsign ?a] => now destruct (qsign a) end.
Qed.

Lemma forecast_value_cases (df : DataFrame) (start : Timestamp)
    (latest_spend : pyfloat) (days_total days_elapsed : Z) :
  (1 ≤ days_elapsed)%Z →
  let x := map (λ row, days_float start (date row)) df in
  let y := map cumulative_spend df in
  let forecast := forecast_value df start latest_spend days_total days_elapsed in
  (fit_guard x y = true ∧
   ∃ slope intercept,
     polyfit1 (map as_Q x) (map as_Q y) = Ok (slope, intercept) ∧
     forecast = fadd (fmul (Finite slope) (of_int days_total)) (Finite intercept))
  ∨
  ((fit_guard x y = false ∨ polyfit1 (map as_Q x) (map as_Q y) = Err LinAlgError) ∧
   forecast = fallback_value latest_spend days_total days_elapsed).
Proof.
  intros Hde x y forecast. subst forecast.
  unfold forecast_value, forecast_fit. fold x y. fold (fit_guard x y).
  destruct (fit_guard x y) eqn:G.
  - destruct (polyfit1 (map as_Q x) (map as_Q y)) as [[s i] | e] eqn:F; cbn [bind].
    + left. split; [reflexivity |]. exists s, i. split; reflexivity.
    + right. apply polyfit1_Err in F as Fe. destruct Fe as (-> & _).
      split; [now right | reflexivity].
  - right. split; [now left |].
    now rewrite forecast_fallback_Ok.
Qed.

(** C4, as the code has it: on a frame with at least one row
    [compute_kpis] raises nothing.  When the frame has at least two rows
    and every day offset and every spend is finite, and the fit returns,
    [forecast_to_complete] is [slope * days_total + intercept] for the
    coefficients of the fit, the line of least squares through all the
    points.  In every other case (fewer than two rows, a day offset or a
    spend that is not finite, a fit that raises) it is
    [latest_spend * (days_total / days_elapsed)].  The forecast need not be
    a finite number: the fallback is none when [latest_spend] is none. *)
Theorem forecast_fit_or_fallback (r : Row) (df : DataFrame) :
  ∃ k,
    compute_kpis_locals (r :: df) = Ok k ∧
    compute_kpis (r :: df) = Ok (kpis_dict k) ∧
    kpis_dict k !! "forecast_to_complete" = Some (PyNum (kpi_forecast_to_complete k)) ∧
    let x := map (λ row, days_float (ts_min (map start_date (r :: df))) (date row))
                 (r :: df) in
    let y := map cumulative_spend (r :: df) in
    (fit_guard x y = true ∧
     ∃ slope intercept,
       polyfit1 (map as_Q x) (map as_Q y) = Ok (slope, intercept) ∧
       least_squares (map as_Q x) (map as_Q y) slope intercept ∧
       kpi_forecast_to_complete k
         = fadd (fmul (Finite slope) (of_int (kpi_days_total k))) (Finite intercept))
    ∨
    ((fit_guard x y = false ∨
      polyfit1 (map as_Q x) (map as_Q y) = Err LinAlgError) ∧
     kpi_forecast_to_complete k
       = fmul (kpi_latest_spend k)
           (fdiv (of_int (kpi_days_total k)) (of_int (kpi_days_elapsed k))) ∧
     (isfinite (kpi_latest_spend k) = false →
      isfinite (kpi_forecast_to_complete k) = false)).
Proof.
  destruct (compute_kpis_locals_spec r df) as (latest & _ & _ & Hk).
  eexists. split; [exact Hk |].
  split; [now apply compute_kpis_of_locals |].
  split; [apply lookup_forecast_to_complete |].
  cbn zeta.
  cbn [kpis_of kpi_forecast_to_complete kpi_latest_spend kpi_days_total kpi_days_elapsed].
  set (start := ts_min (map start_date (r :: df))).
  set (dt := days_or_one (ts_sub (ts_max (map end_date (r :: df))) start)).
  set (de := days_or_one (ts_sub (date latest) start)).
  destruct (forecast_value_cases (r :: df) start (cumulative_spend latest) dt de
              (days_or_one_ge_1 _))
    as [(G & s & i & F & E) | (G & E)].
  - left. split; [exact G |].
    exists s, i. split; [exact F |]. split; [| exact E].
    apply polyfit1_least_squares; [| exact F].
    now rewrite !length_map.
  - right. split; [exact G |]. split; [exact E |].
    rewrite E. apply fallback_value_not_finite.
Qed.

(** C4, as stated, fails on the finite forecast: with the one spend of the
    frame missing, the fallback value is nan. *)
Lemma forecast_missing_spend_nan :
  ∃ k,
    compute_kpis_locals [missing_spend_row] = Ok k ∧
    compute_kpis [missing_spend_row] = Ok (kpis_dict k) ∧
    kpis_dict k !! "forecast_to_complete" = Some (PyNum NaN) ∧
    isfinite NaN = false.
Proof.
  eexists. split; [vm_compute; reflexivity |].
  split; [apply compute_kpis_of_locals; vm_compute; reflexivity |].
  rewrite lookup_forecast_to_complete. split; reflexivity.
Qed.

Lemma forecast_one_missing_point_falls_back :
  ∃ k,
    compute_kpis_locals one_missing_df = Ok k ∧
    kpi_forecast_to_complete k = Finite 1800 ∧
    ∃ slope intercept,
      polyfit1 [10; 20] [400; 900] = Ok (slope, intercept) ∧
      slope * 40 + intercept == 1900.
Proof.
  eexists. split; [vm_compute; reflexivity |].
  split; [reflexivity |].
  eexists _, _. split; reflexivity.
Qed.

(** Rows that all fall on the start date: the fit raises and the fallback
    is used. *)
Lemma forecast_all_on_start_date_falls_back :
  ∃ k,
    compute_kpis_locals [example_row 0 100; example_row 0 300] = Ok k ∧
    polyfit1 [0; 0] [100; 300] = Err LinAlgError ∧
    kpi_forecast_to_complete k = Finite 12000.
Proof.
  eexists. split; [vm_compute; reflexivity |].
  split; reflexivity.
Qed.

Local Close Scope Q_scope.

(** * Further properties of the library and of the dashboard *)

Lemma load_data_sorted_example :
  map (λ r, (project_id r, date r)) (load_data_sorted mixed_df)
  = [("A", day 10); ("A", day 20); ("B", day 20)].
Proof. reflexivity. Qed.

(** ** The latest point *)

Section ascending_last.
Context {A K : Type} (isna : K → bool) (leb : K → K → bool) (key : A → K).
Context (leb_total : ∀ a b, isna a = false → isna b = false →
                            leb a b = true ∨ leb b a = true).
Context (leb_trans : ∀ a b c, leb a b = true → leb b c = true → leb a c = true).

(** The last row of an ascending sort has no key as soon as one row has
    none, and otherwise has the greatest key. *)
Lemma sort_values_ascending_last (rows : list A) (latest : A) :
  iloc_last (sort_values isna leb key true rows) = Ok latest →
  (∀ x, In x rows → isna (key x) = true → isna (key latest) = true) ∧
  (isna (key latest) = false → ∀ x, In x rows → leb (key x) (key latest) = true).
Proof.
  unfold iloc_last, sort_values.
  set (non := List.filter (λ r, negb (isna (key r))) rows).
  set (nans := List.filter (λ r, isna (key r)) rows).
  intros H.
  destruct (last (argsort leb key non ++ nans)) as [a |] eqn:E; [| discriminate].
  injection H as ->.
  assert (Hnans : ∀ x, In x nans → isna (key x) = true)
    by (intros x Hx; now apply filter_In in Hx).
  rewrite last_app in E.
  destruct (last nans) as [y |] eqn:En.
  - injection E as ->.
    assert (Hy : isna (key latest) = true).
    { apply Hnans. apply last_Some in En as [l' ->].
      apply in_or_app. right. now left. }
    split; [auto | congruence].
  - apply last_None in En.
    assert (Hkeys : ∀ x, In x rows → isna (key x) = false).
    { intros x Hx. destruct (isna (key x)) eqn:Ex; [| reflexivity].
      assert (Hin : In x nans) by (apply filter_In; auto).
      rewrite En in Hin. contradiction. }
    split.
    + intros x Hx Hna. rewrite (Hkeys x Hx) in Hna. discriminate.
    + intros _ x Hx.
      assert (Hnon : Forall (has_key isna key) non).
      { rewrite Forall_forall. intros z Hz. apply list_elem_of_In in Hz.
        apply filter_In in Hz as [Hz _]. now apply Hkeys. }
      pose proof (argsort_asc isna leb key leb_total leb_trans (λ _ _, True) non
                    Hnon (StronglySorted_any non)) as Hs.
      apply last_Some in E as [l' E]. rewrite E in Hs.
      assert (Hx' : In x (l' ++ [latest])).
      { rewrite <- E. eapply Permutation_in;
          [symmetry; apply argsort_Permutation |].
        apply filter_In. split; [exact Hx |]. now rewrite (Hkeys x Hx). }
      apply in_app_or in Hx' as [Hx' | [<- | []]].
      * apply StronglySorted_app in Hs as (Hs & _ & _).
        apply (Hs x latest); [now apply list_elem_of_In | now left].
      * assert (Hk : isna (key latest) = false).
        { apply Hkeys. eapply Permutation_in.
          - apply (filter_split_Permutation (λ r, isna (key r)) rows).
          - apply in_or_app. left. fold non.
            eapply Permutation_in; [apply (argsort_Permutation leb key) |].
            rewrite E. apply in_or_app. right. now left. }
        now destruct (leb_total _ _ Hk Hk).
Qed.

End ascending_last.

Lemma ts_leb_total (a b : Timestamp) :
  ts_isna a = false → ts_isna b = false → ts_leb a b = true ∨ ts_leb b a = true.
Proof.
  destruct a as [x |], b as [y |]; try discriminate. intros _ _. cbn.
  destruct (Z.le_ge_cases x y); [left | right]; now apply Z.leb_le.
Qed.

Lemma ts_leb_trans (a b c : Timestamp) :
  ts_leb a b = true → ts_leb b c = true → ts_leb a c = true.
Proof.
  destruct a as [x |], b as [y |], c as [z |]; cbn; try discriminate.
  rewrite !Z.leb_le. lia.
Qed.

(** X1: the row that [compute_kpis] takes as the latest is a row of the
    frame, whatever the order of the rows: [latest_date] and
    [latest_spend] are its date and spend, no date of the frame is later
    than [latest_date], and [latest_date] is [NaT] as soon as one date of
    the frame is. *)
Theorem latest_is_the_maximum_date (r : Row) (df : DataFrame) :
  ∃ k latest,
    compute_kpis_locals (r :: df) = Ok k ∧
    In latest (r :: df) ∧
    kpi_latest_date k = date latest ∧
    kpi_latest_spend k = cumulative_spend latest ∧
    (∀ row, In row (r :: df) → date row = None → kpi_latest_date k = None) ∧
    (∀ row t T, In row (r :: df) → date row = Some t →
       kpi_latest_date k = Some T → t ≤ T).
Proof.
  destruct (compute_kpis_locals_spec r df) as (latest & Hin & Hlast & Hk).
  destruct (sort_values_ascending_last ts_isna ts_leb date ts_leb_total ts_leb_trans
              (r :: df) latest Hlast) as (Hna & Hmax).
  exists (kpis_of (r :: df) (budget r) latest), latest.
  split; [exact Hk |]. split; [exact Hin |].
  cbn [kpis_of kpi_latest_date kpi_latest_spend].
  split; [reflexivity |]. split; [reflexivity |]. split.
  - intros row Hrow Hd.
    specialize (Hna row Hrow). rewrite Hd in Hna. specialize (Hna eq_refl).
    now destruct (date latest).
  - intros row t T Hrow Hd HT.
    rewrite HT in Hmax. specialize (Hmax eq_refl row Hrow).
    rewrite Hd in Hmax. now apply Z.leb_le in Hmax.
Qed.

(** ** A frame of one row *)

(** X3: on a frame of one row no fit is attempted, whatever the row holds:
    [latest_spend] is the spend of that row, [latest_date] its date, and
    [forecast_to_complete] is the fallback
    [latest_spend * (days_total / days_elapsed)]. *)
Theorem single_point_forecast (r : Row) :
  ∃ k,
    compute_kpis_locals [r] = Ok k ∧
    compute_kpis [r] = Ok (kpis_dict k) ∧
    kpi_latest_spend k = cumulative_spend r ∧
    kpi_latest_date k = date r ∧
    kpis_dict k !! "forecast_to_complete"
      = Some (PyNum (fmul (cumulative_spend r)
                       (fdiv (of_int (kpi_days_total k)) (of_int (kpi_days_elapsed k))))).
Proof.
  destruct (compute_kpis_locals_spec r []) as (latest & Hin & _ & Hk).
  destruct Hin as [<- | []].
  eexists. split; [exact Hk |].
  split; [now apply compute_kpis_of_locals |].
  rewrite lookup_forecast_to_complete.
  cbn [kpis_of kpi_latest_spend kpi_latest_date kpi_forecast_to_complete
       kpi_days_elapsed kpi_days_total].
  split; [reflexivity |]. split; [reflexivity |].
  unfold forecast_value, forecast_fit. cbn [map length Nat.leb andb].
  now rewrite forecast_fallback_Ok by apply days_or_one_ge_1.
Qed.

(** ** More on the risk flag *)

(** X6: on the dict that [compute_kpis] returns, [flag_risk] raises nothing
    whatever the two thresholds are (zero, negative and nan included): it
    returns the flag and the message of the three tests on the values of
    that dict. *)
Theorem flag_risk_on_computed_kpis (r : Row) (df : DataFrame)
    (variance_threshold risk_threshold : pyfloat) :
  ∃ k,
    compute_kpis (r :: df) = Ok (kpis_dict k) ∧
    let c1 := fgeb (fabs (kpi_variance_pct k)) variance_threshold in
    let c2 := fgeb (fabs (kpi_risk_score k)) risk_threshold in
    let c3 := fgtb (kpi_forecast_to_complete k) (kpi_budget k) in
    flag_risk (kpis_dict k) variance_threshold risk_threshold
      = Ok (c1 || c2 || c3,
            String.concat " | "
              (reasons c1 c2 c3 (kpi_variance_pct k) (kpi_risk_score k))).
Proof.
  destruct (compute_kpis_locals_spec r df) as (latest & _ & _ & Hk).
  eexists. split; [apply compute_kpis_of_locals; exact Hk |].
  cbv zeta. apply flag_risk_of_messages.
  apply flag_risk_messages_numeric;
    [apply lookup_variance_pct | apply lookup_risk_score
    | apply lookup_forecast_to_complete | apply lookup_budget].
Qed.

(** X7: lowering the thresholds never clears the flag: on a dict that holds
    the four numbers, a project that is flagged with the thresholds
    [variance_threshold], [risk_threshold] is flagged with any lower
    ones. *)
Theorem flag_risk_monotone_in_thresholds (kpis : gmap string pyval)
    (variance_threshold risk_threshold variance_threshold' risk_threshold'
       v r f b : pyfloat) :
  kpis !! "variance_pct" = Some (PyNum v) →
  kpis !! "risk_score" = Some (PyNum r) →
  kpis !! "forecast_to_complete" = Some (PyNum f) →
  kpis !! "budget" = Some (PyNum b) →
  fleb variance_threshold' variance_threshold = true →
  fleb risk_threshold' risk_threshold = true →
  ∃ flag message flag' message',
    flag_risk kpis variance_threshold risk_threshold = Ok (flag, message) ∧
    flag_risk kpis variance_threshold' risk_threshold' = Ok (flag', message') ∧
    (flag = true → flag' = true).
Proof.
  intros Hv Hr Hf Hb Hvt Hrt.
  eexists _, _, _, _.
  split; [apply flag_risk_of_messages;
          now apply (flag_risk_messages_numeric kpis _ _ v r f b) |].
  split; [apply flag_risk_of_messages;
          now apply (flag_risk_messages_numeric kpis _ _ v r f b) |].
  unfold fgeb. intros H.
  apply orb_true_iff in H as [H | H]; [apply orb_true_iff in H as [H | H] |].
  - now rewrite (fleb_trans _ _ _ Hvt H).
  - rewrite (fleb_trans _ _ _ Hrt H). now rewrite orb_true_r.
  - rewrite H. now rewrite orb_true_r.
Qed.

Lemma flag_risk_monotone_in_thresholds_witness :
  ∃ flag message flag' message',
    flag_risk example_kpis (Finite (3 # 10)) (Finite 20) = Ok (flag, message) ∧
    flag_risk example_kpis default_variance_threshold default_risk_threshold
      = Ok (flag', message') ∧
    (flag = true → flag' = true).
Proof.
  apply (flag_risk_monotone_in_thresholds example_kpis
           (Finite (3 # 10)) (Finite 20)
           default_variance_threshold default_risk_threshold
           (Finite (-1 # 5)) (Finite 12) (Finite 1600) (Finite 1000));
    reflexivity.
Defined.

(** X8: with both thresholds above zero [flag_risk] reads a missing field
    as [0] and raises nothing, as long as the fields that are there hold
    numbers: its flag and its message are those of the three tests on the
    values read. *)
Theorem flag_risk_tolerates_missing_keys (kpis : gmap string pyval)
    (variance_threshold risk_threshold : pyfloat) :
  fltb (Finite 0) variance_threshold = true →
  fltb (Finite 0) risk_threshold = true →
  numeric_or_absent kpis "variance_pct" →
  numeric_or_absent kpis "risk_score" →
  numeric_or_absent kpis "forecast_to_complete" →
  numeric_or_absent kpis "budget" →
  let v := read_or_zero kpis "variance_pct" in
  let r := read_or_zero kpis "risk_score" in
  let c1 := fgeb (fabs v) variance_threshold in
  let c2 := fgeb (fabs r) risk_threshold in
  let c3 := fgtb (read_or_zero kpis "forecast_to_complete") (read_or_zero kpis "budget") in
  flag_risk kpis variance_threshold risk_threshold
    = Ok (c1 || c2 || c3, String.concat " | " (reasons c1 c2 c3 v r)).
Proof.
  intros Hvt Hrt Hv Hr Hf Hb. cbv zeta.
  apply flag_risk_of_messages.
  now apply flag_risk_absent_as_zero.
Qed.

Lemma flag_risk_tolerates_missing_keys_witness :
  flag_risk partial_kpis default_variance_threshold default_risk_threshold
    = Ok (true, msg_overrun).
Proof.
  exact (flag_risk_tolerates_missing_keys partial_kpis
           default_variance_threshold default_risk_threshold
           eq_refl eq_refl I I I I).
Defined.

Lemma fgeb_abs_zero (t : pyfloat) : fgeb (fabs (Finite 0)) t = fleb t (Finite 0).
Proof. reflexivity. Qed.

(** X9: on a dict whose fields, where present, hold numbers, [flag_risk]
    either returns or raises [KeyError], and it raises exactly when
    [variance_pct] is missing while [variance_threshold <= 0], or
    [risk_score] is missing while [risk_threshold <= 0]. *)
Theorem flag_risk_KeyError_iff (kpis : gmap string pyval)
    (variance_threshold risk_threshold : pyfloat) :
  numeric_or_absent kpis "variance_pct" →
  numeric_or_absent kpis "risk_score" →
  numeric_or_absent kpis "forecast_to_complete" →
  numeric_or_absent kpis "budget" →
  let raises :=
    absent kpis "variance_pct" && fleb variance_threshold (Finite 0) ||
    absent kpis "risk_score" && fleb risk_threshold (Finite 0) in
  if raises
  then flag_risk kpis variance_threshold risk_threshold = Err KeyError
  else ∃ flag message,
         flag_risk kpis variance_threshold risk_threshold = Ok (flag, message).
Proof.
  intros Hv Hr Hf Hb.
  unfold flag_risk, flag_risk_messages, dict_get, dict_item, absent,
    numeric_or_absent in *.
  destruct (kpis !! "variance_pct") as [[v | ?] |]; [| contradiction |];
  destruct (kpis !! "risk_score") as [[r | ?] |]; try contradiction;
  destruct (kpis !! "forecast_to_complete") as [[f | ?] |]; try contradiction;
  destruct (kpis !! "budget") as [[b | ?] |]; try contradiction;
  cbv [default from_option id py_abs py_gt py_mul py_num bind];
  cbv zeta; rewrite ?fgeb_abs_zero; cbn [andb orb];
  repeat match goal with
         | |- context [fgeb ?a ?b] => destruct (fgeb a b)
         | |- context [fleb ?a ?b] => destruct (fleb a b)
         | |- context [fgtb ?a ?b] => destruct (fgtb a b)
         end; cbn [andb orb]; try reflexivity; eexists _, _; reflexivity.
Qed.

Lemma flag_risk_KeyError_iff_witness :
  flag_risk partial_kpis (Finite 0) default_risk_threshold = Err KeyError.
Proof.
  exact (flag_risk_KeyError_iff partial_kpis (Finite 0) default_risk_threshold
           I I I I).
Defined.

(** ** More on the summary *)

Lemma unique_In (x : string) (l : list string) : In x (unique l) ↔ In x l.
Proof.
  induction l as [| y l IH]; cbn [unique]; [reflexivity |].
  cbn [In]. rewrite filter_In, IH.
  destruct (String.eqb_spec x y) as [-> | Hne]; cbn; intuition congruence.
Qed.

Lemma NoDup_List_filter {A} (p : A → bool) (l : list A) :
  NoDup l → NoDup (List.filter p l).
Proof.
  induction 1 as [| x l Hx Hl IH]; cbn [List.filter]; [constructor |].
  destruct (p x); [| exact IH].
  constructor; [| exact IH].
  rewrite list_elem_of_In, filter_In, <- list_elem_of_In. tauto.
Qed.

Lemma unique_NoDup (l : list string) : NoDup (unique l).
Proof.
  induction l as [| y l IH]; cbn [unique]; [constructor |].
  apply NoDup_cons_2.
  - rewrite list_elem_of_In, filter_In, String.eqb_refl. cbn. intuition discriminate.
  - now apply NoDup_List_filter.
Qed.

Lemma StronglySorted_str_lt_NoDup (l : list string) :
  StronglySorted str_lt l → NoDup l.
Proof.
  induction 1 as [| x l Hs IH Hx]; [constructor |].
  apply NoDup_cons_2; [| exact IH].
  intros Hin. rewrite Forall_forall in Hx.
  exact (str_lt_irrefl x (Hx x Hin)).
Qed.

(** The rows that the loop of [summary_table] builds, each from the rows
    of its project. *)
Lemma collect_summary_rows_agree (df : DataFrame) (keys : list string) :
  (∀ pid, In pid keys → ∃ r, In r df ∧ project_id r = pid) →
  ∃ projects,
    collect summary_row
      (map (λ pid, (pid, List.filter (λ r, String.eqb (project_id r) pid) df)) keys)
      = Ok projects ∧
    map s_project_id projects = keys ∧
    Forall (λ row, ∃ r0 grp k,
              select_project df (s_project_id row) = r0 :: grp ∧
              compute_kpis_locals (r0 :: grp) = Ok k ∧
              row = summary_of (s_project_id row) r0 k) projects.
Proof.
  induction keys as [| pid keys IH]; intros Hkeys.
  - exists []. repeat split. constructor.
  - destruct IH as (projects & Hc & Hm & Hall); [intros; apply Hkeys; now right |].
    destruct (Hkeys pid (or_introl eq_refl)) as (r & Hr & Hpid).
    assert (Hin : In r (select_project df pid)).
    { apply filter_In. split; [exact Hr |]. now apply String.eqb_eq. }
    destruct (select_project df pid) as [| r0 grp] eqn:E; [contradiction |].
    destruct (summary_row_Ok pid r0 grp) as (k & Hk & Hrow).
    exists (summary_of pid r0 k :: projects).
    cbn [map collect]. fold (select_project df pid). rewrite E, Hrow.
    cbn [bind]. rewrite Hc. cbn [bind].
    split; [reflexivity |]. split; [cbn; now rewrite Hm |].
    constructor; [| exact Hall].
    exists r0, grp, k. cbn [summary_of s_project_id]. auto.
Qed.

Lemma summary_table_rows (r : Row) (df : DataFrame) :
  ∃ projects,
    collect summary_row (groupby_project_id (r :: df)) = Ok projects ∧
    map s_project_id projects = group_keys (r :: df) ∧
    Forall (λ row, ∃ r0 grp k,
              select_project (r :: df) (s_project_id row) = r0 :: grp ∧
              compute_kpis_locals (r0 :: grp) = Ok k ∧
              row = summary_of (s_project_id row) r0 k) projects ∧
    summary_table (r :: df)
      = Ok (sort_values isnan fleb s_risk_score false projects).
Proof.
  destruct (collect_summary_rows_agree (r :: df) (group_keys (r :: df)))
    as (projects & Hc & Hm & Hall); [intros pid; apply group_keys_In |].
  exists projects. fold (groupby_project_id (r :: df)) in Hc.
  repeat split; try assumption.
  unfold summary_table. rewrite Hc. cbn [bind].
  destruct projects as [| p ps]; [| reflexivity].
  assert (Hin : In (project_id r) (group_keys (r :: df)))
    by (apply group_keys_In; exists r; split; [now left | reflexivity]).
  rewrite <- Hm in Hin. contradiction.
Qed.

(** X10: [summary_table] raises [KeyError] on the frame without rows, and
    on no other: on a frame with a row it returns, and returns at least
    one row. *)
Theorem summary_table_KeyError_iff_empty (df : DataFrame) :
  match df with
  | [] => summary_table df = Err KeyError
  | _ :: _ => ∃ row rows, summary_table df = Ok (row :: rows)
  end.
Proof.
  destruct df as [| r df]; [reflexivity |].
  destruct (summary_table_rows r df) as (projects & _ & Hm & _ & Hs).
  pose proof (sort_values_Permutation isnan fleb s_risk_score false projects) as Hp.
  destruct (sort_values isnan fleb s_risk_score false projects) as [| row rows].
  - apply Permutation_nil in Hp. subst projects.
    assert (Hin : In (project_id r) (group_keys (r :: df)))
      by (apply group_keys_In; exists r; split; [now left | reflexivity]).
    rewrite <- Hm in Hin. contradiction.
  - eauto.
Qed.

(** X11: the summary has one row for each project of the frame: the
    [project_id]s of its rows are, in some order and without repetition,
    the choices that the side bar of the dashboard lists. *)
Theorem summary_table_one_row_per_project (r : Row) (df : DataFrame) :
  ∃ rows,
    summary_table (r :: df) = Ok rows ∧
    NoDup (map s_project_id rows) ∧
    Permutation (map s_project_id rows) (project_list (r :: df)).
Proof.
  destruct (summary_table_rows r df) as (projects & _ & Hm & _ & Hs).
  eexists. split; [exact Hs |].
  pose proof (sort_values_Permutation isnan fleb s_risk_score false projects) as Hp.
  apply (Permutation_map s_project_id) in Hp. rewrite Hm in Hp.
  pose proof (StronglySorted_str_lt_NoDup _ (group_keys_sorted (r :: df))) as Hnd.
  split.
  - rewrite Hp. exact Hnd.
  - etransitivity; [exact Hp |].
    apply NoDup_Permutation; [exact Hnd | apply unique_NoDup |].
    intros pid. unfold project_list.
    rewrite !list_elem_of_In, unique_In, group_keys_In, in_map_iff.
    split; intros (row & H1 & H2); exists row; auto.
Qed.

(** X12: every row of the summary shows the figures that [compute_kpis]
    returns on the rows of its project, the same rows that the page of
    that project selects, and the name on the first of these rows. *)
Theorem summary_table_agrees_with_compute_kpis (r : Row) (df : DataFrame) :
  ∃ rows,
    summary_table (r :: df) = Ok rows ∧
    Forall (λ row, ∃ r0 grp k,
              select_project (r :: df) (s_project_id row) = r0 :: grp ∧
              compute_kpis (r0 :: grp) = Ok (kpis_dict k) ∧
              s_project_name row = project_name r0 ∧
              s_budget row = kpi_budget k ∧
              s_latest_spend row = kpi_latest_spend k ∧
              s_pct_execution row = kpi_pct_execution k ∧
              s_variance_pct row = kpi_variance_pct k ∧
              s_forecast_to_complete row = kpi_forecast_to_complete k ∧
              s_risk_score row = kpi_risk_score k) rows.
Proof.
  destruct (summary_table_rows r df) as (projects & _ & _ & Hall & Hs).
  eexists. split; [exact Hs |].
  eapply Forall_perm;
    [symmetry; apply (sort_values_Permutation isnan fleb s_risk_score false) |].
  eapply Forall_impl; [exact Hall |].
  intros row (r0 & grp & k & Hsel & Hk & Hrow).
  exists r0, grp, k. split; [exact Hsel |].
  split; [now apply compute_kpis_of_locals |].
  rewrite Hrow. cbn. repeat split.
Qed.

(** ** The order of the loaded table *)

Lemma compare_refl (a : string) : String.compare a a = Eq.
Proof.
  pose proof (String.compare_antisym a a) as H.
  destruct (String.compare a a); cbn in H; congruence.
Qed.

Lemma compare_Gt_Lt (a b : string) : String.compare a b = Gt → String.compare b a = Lt.
Proof.
  intros H. rewrite String.compare_antisym, H. reflexivity.
Qed.

Lemma date_leb_na_last_total (a b : Timestamp) :
  date_leb_na_last a b = true ∨ date_leb_na_last b a = true.
Proof.
  destruct a as [x |], b as [y |]; cbn; auto.
  destruct (Z.le_ge_cases x y); [left | right]; now apply Z.leb_le.
Qed.

Lemma date_leb_na_last_trans (a b c : Timestamp) :
  date_leb_na_last a b = true → date_leb_na_last b c = true →
  date_leb_na_last a c = true.
Proof.
  destruct a as [x |], b as [y |], c as [z |]; cbn; try discriminate; auto.
  rewrite !Z.leb_le. lia.
Qed.

Lemma load_order_leb_total (a b : string * Timestamp) :
  load_order_leb a b = true ∨ load_order_leb b a = true.
Proof.
  unfold load_order_leb.
  destruct (String.compare (fst a) (fst b)) eqn:E.
  - apply String.compare_eq_iff in E. rewrite E, compare_refl.
    apply date_leb_na_last_total.
  - now left.
  - right. now rewrite (compare_Gt_Lt _ _ E).
Qed.

Lemma load_order_leb_trans (a b c : string * Timestamp) :
  load_order_leb a b = true → load_order_leb b c = true → load_order_leb a c = true.
Proof.
  unfold load_order_leb.
  destruct (String.compare (fst a) (fst b)) eqn:E1; [| | discriminate];
    destruct (String.compare (fst b) (fst c)) eqn:E2; try discriminate.
  - apply String.compare_eq_iff in E1, E2. rewrite E1, E2, compare_refl.
    apply date_leb_na_last_trans.
  - apply String.compare_eq_iff in E1. rewrite E1, E2. auto.
  - apply String.compare_eq_iff in E2. rewrite <- E2, E1. auto.
  - intros _ _. now rewrite (str_lt_trans _ _ _ E1 E2).
Qed.

Lemma load_order_leb_iff (a b : Row) :
  load_order_leb (load_order_key a) (load_order_key b) = true ↔ load_order a b.
Proof.
  unfold load_order_leb, load_order, load_order_key, str_lt. cbn [fst snd].
  destruct (String.compare (project_id a) (project_id b)) eqn:E.
  - apply String.compare_eq_iff in E. intuition congruence.
  - intuition.
  - split; [discriminate |].
    intros [H | [H _]]; [discriminate |].
    rewrite H, compare_refl in E. discriminate.
Qed.

(** X13: the table that [load_data] returns has the rows of the table it
    read, each as often, ordered by [project_id] and within a project by
    date, the rows without a date last. *)
Theorem load_data_sorted_by_project_and_date (df : DataFrame) :
  Permutation (load_data_sorted df) df ∧
  StronglySorted load_order (load_data_sorted df).
Proof.
  split; [apply argsort_Permutation |].
  apply (StronglySorted_impl
           (asc load_order_leb load_order_key (λ _ _, True))).
  - intros x y [H _]. now apply load_order_leb_iff.
  - apply (argsort_asc (λ _, false)).
    + intros a b _ _. apply load_order_leb_total.
    + apply load_order_leb_trans.
    + rewrite Forall_forall. reflexivity.
    + apply StronglySorted_any.
Qed.

Lemma filter_all {A} (p : A → bool) (l : list A) :
  Forall (λ x, p x = true) l → List.filter p l = l.
Proof.
  induction 1 as [| x l Hx _ IH]; cbn; [reflexivity |].
  now rewrite Hx, IH.
Qed.

Lemma str_lt_neqb (a b : string) : str_lt a b → negb (String.eqb b a) = true.
Proof.
  intros H. destruct (String.eqb_spec b a) as [-> | ?]; [| reflexivity].
  now apply str_lt_irrefl in H.
Qed.

Lemma insert_key_below (x : string) (ks : list string) :
  StronglySorted str_lt ks → Forall (id_le x) ks →
  insert_key x ks = x :: List.filter (λ y, negb (String.eqb y x)) ks.
Proof.
  intros Hs Hx. destruct Hs as [| h t Ht Hh]; [reflexivity |].
  apply Forall_cons in Hx as [Hxh _]. cbn [insert_key List.filter].
  assert (Htail : ∀ z, str_lt z h →
            List.filter (λ y, negb (String.eqb y z)) t = t).
  { intros z Hz. apply filter_all. eapply Forall_impl; [exact Hh |].
    intros y Hy. cbn. apply str_lt_neqb. eapply str_lt_trans; eassumption. }
  destruct (String.compare x h) eqn:E.
  - apply String.compare_eq_iff in E. subst h.
    rewrite String.eqb_refl. cbn [negb]. f_equal. symmetry.
    apply filter_all. eapply Forall_impl; [exact Hh |].
    intros y Hy. now apply str_lt_neqb.
  - rewrite (str_lt_neqb x h E). f_equal. f_equal. symmetry. now apply Htail.
  - destruct Hxh as [-> | Hlt].
    + rewrite compare_refl in E. discriminate.
    + unfold str_lt in Hlt. congruence.
Qed.

(** On ids that never go down, sorting the distinct ids and listing them
    by first appearance give the same list. *)
Lemma group_keys_of_sorted_ids (ids : list string) :
  StronglySorted id_le ids → foldr insert_key [] ids = unique ids.
Proof.
  induction 1 as [| x l Hs IH Hx]; [reflexivity |].
  cbn [foldr unique]. rewrite <- IH.
  apply insert_key_below.
  - clear. induction l as [| y l IH]; cbn; [constructor |].
    now apply insert_key_sorted.
  - rewrite Forall_forall in Hx |- *. intros y Hy.
    apply Hx. apply list_elem_of_In.
    apply list_elem_of_In in Hy. rewrite IH in Hy.
    exact (proj1 (unique_In y l) Hy).
Qed.

(** X14: on the table that [load_data] returns, [groupby] hands out the
    projects in the order in which they first appear in the table, which
    is the order of the choices of the side bar; so the rows of
    [summary_table], before they are sorted by score, come in that
    order. *)
Theorem groupby_order_on_loaded_table (df : DataFrame) :
  let loaded := load_data_sorted df in
  map fst (groupby_project_id loaded) = project_list loaded ∧
  ∃ projects,
    collect summary_row (groupby_project_id loaded) = Ok projects ∧
    map s_project_id projects = project_list loaded.
Proof.
  cbv zeta.
  assert (Hk : group_keys (load_data_sorted df) = project_list (load_data_sorted df)).
  { unfold group_keys, project_list. apply group_keys_of_sorted_ids.
    destruct (load_data_sorted_by_project_and_date df) as [_ Hs].
    revert Hs. generalize (load_data_sorted df) as l.
    induction 1 as [| x l Hl IH Hx]; cbn [map]; constructor; [exact IH |].
    rewrite Forall_forall in Hx. rewrite Forall_forall. intros y Hy.
    apply list_elem_of_In, in_map_iff in Hy as (row & <- & Hrow).
    destruct (Hx row) as [H | [H _]]; [now apply list_elem_of_In | |];
      [now right | now left]. }
  split.
  - unfold groupby_project_id. rewrite map_map. cbn [fst].
    rewrite map_id. exact Hk.
  - destruct (collect_summary_rows (load_data_sorted df)
                (group_keys (load_data_sorted df)))
      as (projects & Hc & Hm); [intros pid; apply group_keys_In |].
    exists projects. split; [exact Hc |]. now rewrite Hm.
Qed.

(** ** The page of a project *)

Lemma truthy_hundred (x : pyfloat) : py_truediv x (Finite 100) = Ok (fdiv x (Finite 100)).
Proof. reflexivity. Qed.

Lemma recommendations_numeric (kpis : gmap string pyval)
    (variance_threshold v f b de dt pe : pyfloat) :
  kpis !! "variance_pct" = Some (PyNum v) →
  kpis !! "forecast_to_complete" = Some (PyNum f) →
  kpis !! "budget" = Some (PyNum b) →
  kpis !! "days_elapsed" = Some (PyNum de) →
  kpis !! "days_total" = Some (PyNum dt) →
  kpis !! "pct_execution" = Some (PyNum pe) →
  let c1 := fgtb v (fdiv variance_threshold (Finite 100)) in
  let c2 := fgtb f b in
  let c3 := fltb (fdiv de dt) (Finite (1 # 2)) && fgtb pe (Finite (7 # 10)) in
  recommendations kpis variance_threshold
    = if truthy dt then Ok (rec_reasons c1 c2 c3 v) else Err ZeroDivisionError.
Proof.
  intros Hv Hf Hb Hde Hdt Hpe. cbv zeta.
  unfold recommendations, dict_item.
  rewrite Hv, Hf, Hb, Hde, Hdt, Hpe, truthy_hundred.
  cbv [py_gt py_mul py_div bind]. unfold py_truediv, rec_reasons.
  destruct (fgtb v (fdiv variance_threshold (Finite 100))), (fgtb f b),
    (truthy dt); try reflexivity;
    destruct (fltb (fdiv de dt) (Finite (1 # 2))); try reflexivity;
    destruct (fgtb pe (Finite (7 # 10))); reflexivity.
Qed.

(** X15: on a dict that holds the six numbers it reads, the list of
    recommendations is made of the advice of the tests that hold, in the
    order deviation, containment, early execution, and is the default
    advice alone when none holds, so it is never empty; when [days_total]
    is [0] the quotient [days_elapsed / days_total] raises
    [ZeroDivisionError] instead. *)
Theorem recommendations_cases (kpis : gmap string pyval)
    (variance_threshold v f b de dt pe : pyfloat) :
  kpis !! "variance_pct" = Some (PyNum v) →
  kpis !! "forecast_to_complete" = Some (PyNum f) →
  kpis !! "budget" = Some (PyNum b) →
  kpis !! "days_elapsed" = Some (PyNum de) →
  kpis !! "days_total" = Some (PyNum dt) →
  kpis !! "pct_execution" = Some (PyNum pe) →
  let c1 := fgtb v (fdiv variance_threshold (Finite 100)) in
  let c2 := fgtb f b in
  let c3 := fltb (fdiv de dt) (Finite (1 # 2)) && fgtb pe (Finite (7 # 10)) in
  recommendations kpis variance_threshold
    = (if truthy dt then Ok (rec_reasons c1 c2 c3 v) else Err ZeroDivisionError) ∧
  rec_reasons c1 c2 c3 v ≠ [] ∧
  (rec_reasons c1 c2 c3 v = [rec_default] ↔ c1 = false ∧ c2 = false ∧ c3 = false).
Proof.
  intros Hv Hf Hb Hde Hdt Hpe c1 c2 c3.
  split; [now apply recommendations_numeric |].
  unfold rec_reasons.
  destruct c1, c2, c3; cbn; split; try discriminate; intuition discriminate.
Qed.

Lemma recommendations_cases_witness :
  recommendations example_page_kpis (Finite 10) = Ok [rec_forecast].
Proof.
  exact (proj1 (recommendations_cases example_page_kpis (Finite 10)
                  (Finite (-1 # 5)) (Finite 1600) (Finite 1000)
                  (Finite 20) (Finite 40) (Finite (4 # 5))
                  eq_refl eq_refl eq_refl eq_refl eq_refl eq_refl)).
Defined.

Lemma select_project_listed (df : DataFrame) (choice : string) :
  In choice (project_list df) → ∃ r0 grp, select_project df choice = r0 :: grp.
Proof.
  intros H. apply unique_In, in_map_iff in H as (row & Hid & Hrow).
  assert (Hin : In row (select_project df choice)).
  { apply filter_In. split; [exact Hrow |]. now apply String.eqb_eq. }
  destruct (select_project df choice) as [| r0 grp]; [contradiction | eauto].
Qed.


(** A value above the threshold is one whose absolute value reaches it. *)
Lemma fgtb_fgeb_abs (v t : pyfloat) : fgtb v t = true → fgeb (fabs v) t = true.
Proof.
  unfold fgtb, fgeb.
  destruct v as [q | | |], t as [p | | |]; cbn; try discriminate; auto.
  intros H. apply Qle_bool_iff. rewrite Qred_correct.
  destruct (Qle_bool q p) eqn:E; [discriminate |].
  apply Qle_bool_false in E.
  apply Qlt_le_weak. eapply Qlt_le_trans; [exact E | apply Qle_Qabs].
Qed.

(** X16: for a project that the side bar lists, none of the computations
    of the page raises, whatever the two sliders say: the project has
    rows, [compute_kpis], [flag_risk] and the recommendations return, and
    the page shows the name on the first row of the project and the KPIs
    of its rows.  When
    the alert is off ([risky] false), the page advises neither on
    deviation nor on containment: its advice is the one on early execution
    or the default one. *)
Theorem project_page_of_listed_project (df : DataFrame) (project_choice : string)
    (variance_threshold risk_threshold : pyfloat) :
  In project_choice (project_list df) →
  ∃ r0 grp k view,
    select_project df project_choice = r0 :: grp ∧
    compute_kpis_locals (r0 :: grp) = Ok k ∧
    project_page df project_choice variance_threshold risk_threshold = Ok view ∧
    view_name view = project_name r0 ∧
    view_kpis view = kpis_dict k ∧
    (view_risky view = false →
     view_recs view = [rec_early] ∨ view_recs view = [rec_default]).
Proof.
  intros Hin.
  destruct (select_project_listed df project_choice Hin) as (r0 & grp & Hsel).
  destruct (compute_kpis_locals_spec r0 grp) as (latest & _ & _ & Hk).
  set (k := kpis_of (r0 :: grp) (budget r0) latest) in *.
  pose proof (flag_risk_messages_numeric (kpis_dict k)
                (fdiv variance_threshold (Finite 100)) risk_threshold _ _ _ _
                (lookup_variance_pct k) (lookup_risk_score k)
                (lookup_forecast_to_complete k) (lookup_budget k)) as Hflag.
  apply flag_risk_of_messages in Hflag.
  pose proof (recommendations_numeric (kpis_dict k) variance_threshold _ _ _ _ _ _
                (lookup_variance_pct k) (lookup_forecast_to_complete k)
                (lookup_budget k) (lookup_days_elapsed k) (lookup_days_total k)
                (lookup_pct_execution k)) as Hrecs.
  cbv zeta in Hflag, Hrecs.
  assert (Hdt : truthy (of_int (kpi_days_total k)) = true).
  { apply truthy_of_int. subst k. cbn [kpis_of kpi_days_total].
    pose proof (days_or_one_ge_1
      (ts_sub (ts_max (map end_date (r0 :: grp)))
              (ts_min (map start_date (r0 :: grp))))). lia. }
  rewrite Hdt in Hrecs.
  eexists r0, grp, k, _.
  split; [exact Hsel |]. split; [exact Hk |].
  split.
  { unfold project_page. rewrite Hsel. cbn [map iloc_first bind].
    rewrite (compute_kpis_of_locals _ _ Hk). cbn [bind].
    rewrite truthy_hundred. cbn [bind].
    rewrite Hflag. cbn [bind]. rewrite Hrecs. cbn [bind]. reflexivity. }
  cbn [view_name view_kpis view_risky view_recs].
  split; [reflexivity |]. split; [reflexivity |].
  intros Hoff.
  apply orb_false_iff in Hoff as [Hoff H3].
  apply orb_false_iff in Hoff as [H1 _].
  assert (H1' : fgtb (kpi_variance_pct k) (fdiv variance_threshold (Finite 100)) = false).
  { destruct (fgtb (kpi_variance_pct k) (fdiv variance_threshold (Finite 100))) eqn:E;
      [| reflexivity].
    apply fgtb_fgeb_abs in E. congruence. }
  unfold rec_reasons. rewrite H1', H3. cbn [orb].
  match goal with |- context [if ?c then _ else _] => destruct c end; cbn; auto.
Qed.

Lemma project_page_of_listed_project_witness :
  In "A" (project_list mixed_df) ∧
  ∃ r0 grp k view,
    select_project mixed_df "A" = r0 :: grp ∧
    compute_kpis_locals (r0 :: grp) = Ok k ∧
    project_page mixed_df "A" (Finite 10) (Finite 5) = Ok view ∧
    view_name view = project_name r0 ∧
    view_kpis view = kpis_dict k ∧
    (view_risky view = false →
     view_recs view = [rec_early] ∨ view_recs view = [rec_default]).
Proof.
  assert (H : In "A" (project_list mixed_df)) by (right; now left).
  split; [exact H |].
  exact (project_page_of_listed_project mixed_df "A" (Finite 10) (Finite 5) H).
Defined.


